(** * UAV recovery project: the field-report simulation engine

    A shallow embedding of [signal_propagation.py] and of the generator
    scripts [generate_field_reports_batch_1.py],
    [generate_field_reports_batch_2.py] and [generate_historical_data.py]
    of [datagenerators], followed by the properties of the engine that the
    specification states (C1 to C10) and by further properties read off
    the code (X1 to X19).

    Numbers.  Python floats are modelled by exact rationals ([Q]); the one
    float that is not a number in this program, [np.nan], is a constructor
    of its own ([PyNaN]).  Numeric comparisons are therefore stated with
    [==] on [Q].

    External libraries.  geopy's [geodesic], numpy's [log10], the raster
    behind [rasterio.open], [datetime.isoformat] and the two random number
    generators ([np.random] and [random]) are not part of the repository:
    they are parameters of the model, bundled in the records [Library],
    [NumpyRandom] and [PyRandom]. *)

From Stdlib Require Import QArith Qminmax ZArith List String Ascii Lia Lqa Bool.
From Stdlib Require Import Qround DecimalString DecimalNat FinFun.
Import ListNotations.

Set Warnings "-abstract-large-number".
Open Scope Q_scope.

(* ================================================================== *)
(** ** Python values, exceptions *)

Module Py.

(** The exceptions this program can raise. *)
Inductive exn : Type :=
| RasterioIOError (path : string)     (* rasterio.open on an unreadable file *)
| ValueError (msg : string)           (* numpy: reduction of an empty array, shape mismatch *)
| TypeError (msg : string)            (* None + 120 *)
| RuntimeError (msg : string).        (* raised by the generator script *)

Inductive result (A : Type) : Type :=
| Ok (a : A)
| Raise (e : exn).
Arguments Ok {A} a.
Arguments Raise {A} e.

Definition rbind {A B} (r : result A) (f : A -> result B) : result B :=
  match r with
  | Ok a => f a
  | Raise e => Raise e
  end.

(** A dynamically typed cell of a report: a float, [np.nan], an int or a
    string. *)
Inductive value : Type :=
| PyFloat (q : Q)
| PyNaN
| PyInt (z : Z)
| PyStr (s : string).

(** [a < b] on floats. *)
Definition ltb (a b : Q) : bool := negb (Qle_bool b a).

(** [str(n)] for a non-negative int. *)
Definition str (n : nat) : string := NilEmpty.string_of_uint (Nat.to_uint n).

Fixpoint zeros (n : nat) : string :=
  match n with
  | O => EmptyString
  | S n' => String "0"%char (zeros n')
  end.

(** [s.zfill(width)] for a string without a sign. *)
Definition zfill (s : string) (width : nat) : string :=
  (zeros (width - String.length s) ++ s)%string.

(** [min(a, b)]: [b] when [b < a], otherwise [a]. *)
Definition min (a b : Q) : Q := if ltb b a then b else a.

End Py.
Import Py.

Notation "x <- c1 ;; c2" := (rbind c1 (fun x => c2))
  (at level 61, c1 at next level, right associativity).

(* ================================================================== *)
(** ** numpy arrays of floats *)

Module Np.

(** [np.linspace(start, stop, num)], endpoint included: [arange(num) *
    step + start] with the last element set to [stop]. *)
Definition linspace (start stop : Q) (num : nat) : list Q :=
  match num with
  | O => []
  | S O => [start]
  | S (S _ as div) =>
      let step := (stop - start) / inject_Z (Z.of_nat div) in
      map (fun i => inject_Z (Z.of_nat i) * step + start) (seq 0 div) ++ [stop]
  end.

(** [a - b] on one-dimensional arrays, with numpy's broadcasting of a
    one-element operand. *)
Definition sub (a b : list Q) : result (list Q) :=
  if Nat.eqb (List.length a) (List.length b)
  then Ok (map (fun p => fst p - snd p) (combine a b))
  else match a, b with
       | [x], _ => Ok (map (fun y => x - y) b)
       | _, [y] => Ok (map (fun x => x - y) a)
       | _, _ => Raise (ValueError "operands could not be broadcast together")
       end.

(** [np.maximum(a, c)] with a scalar [c]. *)
Definition maximum (a : list Q) (c : Q) : list Q := map (fun x => Qmax x c) a.

(** [np.max(a)]; an empty array has no maximum. *)
Definition max (a : list Q) : result Q :=
  match a with
  | [] => Raise (ValueError "zero-size array to reduction operation maximum which has no identity")
  | x :: xs => Ok (fold_left Qmax xs x)
  end.

End Np.

(* ================================================================== *)
(** ** The external world *)

(** An opened raster, as this program uses it: [ds_band1 x y] is
    [float(val[0])] for the [val] that [src.sample] yields at [(x, y)]
    (x is the longitude, y the latitude); [ds_covers x y] tells whether the
    point lies in the extent the raster covers. *)
Record dataset : Type := {
  ds_covers : Q -> Q -> bool;
  ds_band1 : Q -> Q -> Q
}.

(** [src.sample(xy)]: one value per point, in order. *)
Definition sample (src : dataset) (xy : list (Q * Q)) : list Q :=
  map (fun p => ds_band1 src (fst p) (snd p)) xy.

Record Library : Type := {
  (** [geodesic((lat1, lon1), (lat2, lon2)).meters] *)
  geodesic_meters : Q * Q -> Q * Q -> Q;
  (** [np.log10] *)
  log10 : Q -> Q;
  (** [rasterio.open(path)]: the opened raster, or the error it raises *)
  rasterio_open : string -> result dataset;
  (** [datetime.isoformat()] of a point in time *)
  isoformat : Z -> string
}.

(** The global generator behind [np.random]. *)
Record NumpyRandom : Type := {
  np_state : Type;
  np_seed : Z -> np_state;
  np_uniform : Q -> Q -> np_state -> Q * np_state;
  np_normal : Q -> Q -> np_state -> Q * np_state;
  np_randint : Z -> Z -> np_state -> Z * np_state;
  (** [np.random.randint(low, high)] lies in [[low, high)] *)
  np_randint_range : forall low high s,
      (low < high)%Z -> (low <= fst (np_randint low high s) < high)%Z
}.

(** The global generator behind Python's [random]. *)
Record PyRandom : Type := {
  py_state : Type;
  py_seed : Z -> py_state;
  py_random : py_state -> Q * py_state;
  py_randint : Z -> Z -> py_state -> Z * py_state;
  py_randbelow : nat -> py_state -> nat * py_state;
  (** [random.randint(a, b)] lies in [[a, b]] *)
  py_randint_range : forall a b s,
      (a <= b)%Z -> (a <= fst (py_randint a b s) <= b)%Z;
  (** [_randbelow(n)] lies in [[0, n)] *)
  py_randbelow_range : forall n s,
      (0 < n)%nat -> (fst (py_randbelow n s) < n)%nat
}.

(* ================================================================== *)
(** ** signal_propagation.py *)

Section SignalPropagation.

Variable L : Library.
Variable NR : NumpyRandom.

(** [get_elevation(lat, lon, dem_path)].  The function returns inside
    the loop over the samples; when the loop body never runs, the
    function falls off its end and returns [None]. *)
Definition get_elevation (lat lon : Q) (dem_path : string) : result (option Q) :=
  src <- rasterio_open L dem_path ;;
  match sample src [(lon, lat)] with
  | val :: _ => Ok (Some val)
  | [] => Ok None
  end.

(** [line_of_sight_blockage(..., dem_path, num)] *)
Definition line_of_sight_blockage
    (tx_lat tx_lon tx_elev rx_lat rx_lon rx_elev : Q)
    (dem_path : string) (num : nat) : result (bool * Q) :=
  let lats := Np.linspace tx_lat rx_lat num in
  let lons := Np.linspace tx_lon rx_lon num in
  let elevs := Np.linspace tx_elev rx_elev num in
  src <- rasterio_open L dem_path ;;
  let terrain_elevs := sample src (combine lons lats) in
  diff <- Np.sub terrain_elevs elevs ;;
  blockage <- Np.max (Np.maximum diff 0) ;;
  let los_clear := Qeq_bool blockage 0 in
  Ok (los_clear, blockage).

(** Line 33: [0 if los_clear else -k * blockage_m]. *)
Definition LOS_Penalty (los_clear : bool) (k blockage_m : Q) : Q :=
  if los_clear then 0 else - k * blockage_m.

(** Lines 36 to 39: the noise-floor check on the signal of line 35. *)
Definition floor_check (signal_strength blockage_m noise_floor : Q)
  : value * Q * Q :=
  let snr := signal_strength - noise_floor in
  if ltb snr 0
  then (PyNaN, blockage_m, snr)
  else (PyFloat signal_strength, blockage_m, snr).

(** [compute_rss(...)], threading the state of [np.random]. *)
Definition compute_rss
    (tx_lat tx_lon tx_elev rx_lat rx_lon rx_elev : Q) (dem_path : string)
    (base_strength k noise_floor : Q) (s : np_state NR)
  : result (value * Q * Q * np_state NR) :=
  let distance := geodesic_meters L (tx_lat, tx_lon) (rx_lat, rx_lon) in
  lb <- line_of_sight_blockage tx_lat tx_lon tx_elev rx_lat rx_lon rx_elev
          dem_path 100 ;;
  let '(los_clear, blockage_m) := lb in
  let Path_Loss := 20 * log10 L distance in
  let LOS_Penalty := LOS_Penalty los_clear k blockage_m in
  let '(Noise, s') := np_normal NR 0 2 s in
  let signal_strength := base_strength - Path_Loss + LOS_Penalty + Noise in
  Ok (floor_check signal_strength blockage_m noise_floor, s').

End SignalPropagation.

(* ================================================================== *)
(** ** datagenerators/generate_field_reports_batch_1.py *)

(** Points in time are counted in seconds from 2025-08-21T00:00:00, the
    day of the mission; a [timedelta] is a number of seconds. *)
Definition datetime_2025_08_21 (hour minute second : Z) : Z :=
  (hour * 3600 + minute * 60 + second)%Z.

Definition timedelta_minutes (minutes : Z) : Z := (minutes * 60)%Z.

(** The named constants of the script. *)
Record Config : Type := {
  seed : Z;
  LAT_MIN : Q;
  LAT_MAX : Q;
  LON_MIN : Q;
  LON_MAX : Q;
  beacon_lat : Q;
  beacon_lon : Q;
  dem_file : string;
  num_points : nat;
  min_dist_to_beacon_m : Q;
  min_dist_between_teams_m : Q;
  max_attempts : nat;
  start_time : Z;
  storm_begin : Z;
  storm_end : Z
}.

Definition batch_1 : Config := {|
  seed := 101;
  LAT_MIN := 37.1;
  LAT_MAX := 37.6;
  LON_MIN := -119.4;
  LON_MAX := -118.8;
  beacon_lat := 37.42;
  beacon_lon := -119.05;
  dem_file := "data/sierra_dem.tif";
  num_points := 200;
  min_dist_to_beacon_m := 1609.34;
  min_dist_between_teams_m := 2011.68;
  max_attempts := 15000;
  start_time := datetime_2025_08_21 6 0 0;
  storm_begin := datetime_2025_08_21 8 0 0;
  storm_end := datetime_2025_08_21 9 30 0
|}.

(** One row of the data frame (the dict appended to [records]). *)
Record report : Type := {
  report_id : nat;
  timestamp : string;
  team_callsign : string;
  latitude : Q;
  longitude : Q;
  elevation_m : Q;
  wind_direction_deg : value;
  ambient_temp_c : Q;
  battery_level_percent : value;
  signal_strength : value
}.

(** The four variables that the corruption branch may overwrite. *)
Record cells : Type := {
  c_callsign : string;
  c_signal_strength : value;
  c_wind_direction_deg : value;
  c_battery_level_percent : value
}.

Section Generator.

Variable L : Library.
Variable NR : NumpyRandom.
Variable PR : PyRandom.
Variable cfg : Config.

(** The states of the two global generators. *)
Definition rng : Type := (np_state NR * py_state PR)%type.

(** [f"TEAM{str(n).zfill(3)}"] *)
Definition callsign (n : nat) : string := ("TEAM" ++ zfill (str n) 3)%string.

(** Lines 50 to 54: is the candidate too close to a team placed before? *)
Definition too_close (lat lon : Q) (team_coords : list (Q * Q)) : bool :=
  existsb (fun other =>
             ltb (geodesic_meters L (lat, lon) other) (min_dist_between_teams_m cfg))
          team_coords.

(** Lines 41 to 60, the [while] loop.  Every iteration adds one to
    [attempts], so [max_attempts - attempts] iterations are enough:
    [fuel] counts them (see [sampling_loop_exit]). *)
Fixpoint sampling_loop (fuel : nat)
    (team_coords : list (Q * Q)) (team_callsigns : list string)
    (attempts : nat) (s : np_state NR)
  : list (Q * Q) * list string * nat * np_state NR :=
  if (List.length team_coords <? num_points cfg)%nat
     && (attempts <? max_attempts cfg)%nat
  then
    match fuel with
    | O => (team_coords, team_callsigns, attempts, s)
    | S fuel' =>
        let '(lat, s1) := np_uniform NR (LAT_MIN cfg) (LAT_MAX cfg) s in
        let '(lon, s2) := np_uniform NR (LON_MIN cfg) (LON_MAX cfg) s1 in
        let dist_to_beacon :=
          geodesic_meters L (lat, lon) (beacon_lat cfg, beacon_lon cfg) in
        if ltb dist_to_beacon (min_dist_to_beacon_m cfg)
        then sampling_loop fuel' team_coords team_callsigns (attempts + 1) s2
        else if too_close lat lon team_coords
        then sampling_loop fuel' team_coords team_callsigns (attempts + 1) s2
        else
          let team_coords' := team_coords ++ [(lat, lon)] in
          let team_callsigns' :=
            team_callsigns ++ [callsign (List.length team_coords')] in
          sampling_loop fuel' team_coords' team_callsigns' (attempts + 1) s2
    end
  else (team_coords, team_callsigns, attempts, s).

(** Lines 37 to 60: the sampler, from the empty lists. *)
Definition sampler (s : np_state NR)
  : list (Q * Q) * list string * nat * np_state NR :=
  sampling_loop (max_attempts cfg) [] [] 0 s.

(** The message of line 62. *)
Definition placement_message : string :=
  ("Could not place " ++ str (num_points cfg)
   ++ " teams with the given constraints after "
   ++ str (max_attempts cfg) ++ " attempts.")%string.

(** Line 98: the closed window of the solar storm. *)
Definition in_storm (current_time : Z) : bool :=
  (storm_begin cfg <=? current_time)%Z && (current_time <=? storm_end cfg)%Z.

(** [random.choice(seq)]: [seq[_randbelow(len(seq))]]. *)
Definition py_choice (seq : list string) (p : py_state PR) : string * py_state PR :=
  let '(i, p') := py_randbelow PR (List.length seq) p in
  (nth i seq EmptyString, p').

(** Lines 99 to 102: the solar storm. *)
Definition storm_corruption (c : cells) (w : rng) : cells * rng :=
  let '(n, p) := w in
  let '(b, n') := np_randint NR 150 300 n in
  ({| c_callsign := c_callsign c;
      c_signal_strength := PyStr "ERR-&^%";
      c_wind_direction_deg := PyInt (-999);
      c_battery_level_percent := PyInt b |}, (n', p)).

(** Lines 104 to 112: the general messiness, four draws in order. *)
Definition general_messiness (c : cells) (w : rng) : cells * rng :=
  let '(n, p) := w in
  let '(r1, p1) := py_random PR p in
  let '(team_callsign, p2) :=
    if ltb r1 0.1 then py_choice ["Alpha"; "alfa"; "bravo"]%string p1
    else (c_callsign c, p1) in
  let '(r2, p3) := py_random PR p2 in
  let signal_strength := if ltb r2 0.05 then PyNaN else c_signal_strength c in
  let '(r3, p4) := py_random PR p3 in
  let '(wind_direction_deg, p5) :=
    if ltb r3 0.05
    then let '(t, p') := py_choice ["?"; "N/A"; EmptyString]%string p4 in (PyStr t, p')
    else (c_wind_direction_deg c, p4) in
  let '(r4, p6) := py_random PR p5 in
  let battery_level_percent :=
    if ltb r4 0.05 then PyNaN else c_battery_level_percent c in
  ({| c_callsign := team_callsign;
      c_signal_strength := signal_strength;
      c_wind_direction_deg := wind_direction_deg;
      c_battery_level_percent := battery_level_percent |}, (n, p6)).

(** Lines 98 to 112: the corruption branch. *)
Definition corrupt (current_time : Z) (c : cells) (w : rng) : cells * rng :=
  if in_storm current_time then storm_corruption c w else general_messiness c w.

(** [get_elevation(...)] where a float is needed: [None + 120] and
    [np.linspace(None, ...)] raise a [TypeError]. *)
Definition elevation_float (lat lon : Q) : result Q :=
  e <- get_elevation L lat lon (dem_file cfg) ;;
  match e with
  | Some v => Ok v
  | None => Raise (TypeError "unsupported operand type(s): NoneType")
  end.

(** Line 95. *)
Definition current_time (i : nat) (time_increment : Z) : Z :=
  (start_time cfg + Z.of_nat i * time_increment)%Z.

(** Lines 72 to 92: the values of one report before the corruption
    branch, as a row, and the state of the generators after them. *)
Definition clean_report (i : nat) (team_lat team_lon : Q) (team_callsign : string)
    (time_increment : Z) (w : rng) : result (report * rng) :=
  let '(n, p) := w in
  ground <- elevation_float team_lat team_lon ;;
  let team_elev := ground + 120 in
  let team_elev := Py.min team_elev 4000 in
  beacon_elev <- elevation_float (beacon_lat cfg) (beacon_lon cfg) ;;
  rss <- compute_rss L NR (beacon_lat cfg) (beacon_lon cfg) beacon_elev
           team_lat team_lon team_elev (dem_file cfg) (-30) 0.15 (-120) n ;;
  let '(signal_strength, blockage_m, _, n1) := rss in
  let '(wind_direction_deg, n2) := np_uniform NR 0 360 n1 in
  let '(ambient_temp_c, n3) := np_normal NR 25 5 n2 in
  let '(battery_level_percent, n4) := np_uniform NR 20 100 n3 in
  Ok ({| report_id := i + 1;
         timestamp := isoformat L (current_time i time_increment);
         team_callsign := team_callsign;
         latitude := team_lat;
         longitude := team_lon;
         elevation_m := team_elev;
         wind_direction_deg := PyFloat wind_direction_deg;
         ambient_temp_c := ambient_temp_c;
         battery_level_percent := PyFloat battery_level_percent;
         signal_strength := signal_strength |}, (n4, p)).

(** The variables of a row that the corruption branch reads and writes. *)
Definition cells_of (r : report) : cells :=
  {| c_callsign := team_callsign r;
     c_signal_strength := signal_strength r;
     c_wind_direction_deg := wind_direction_deg r;
     c_battery_level_percent := battery_level_percent r |}.

(** Lines 130 to 141: the row appended, built from the variables as the
    corruption branch left them. *)
Definition store_record (r : report) (c : cells) : report :=
  {| report_id := report_id r;
     timestamp := timestamp r;
     team_callsign := c_callsign c;
     latitude := latitude r;
     longitude := longitude r;
     elevation_m := elevation_m r;
     wind_direction_deg := c_wind_direction_deg c;
     ambient_temp_c := ambient_temp_c r;
     battery_level_percent := c_battery_level_percent c;
     signal_strength := c_signal_strength c |}.

(** Lines 94 to 112 on a clean row: the fault injection of one report. *)
Definition inject (i : nat) (time_increment : Z) (r : report) (w : rng)
  : report * rng :=
  let '(c, w') := corrupt (current_time i time_increment) (cells_of r) w in
  (store_record r c, w').

(** Lines 72 to 141: the body of the [for] loop. *)
Definition loop_body (i : nat) (team_lat team_lon : Q) (team_callsign : string)
    (time_increment : Z) (w : rng) : result (report * rng) :=
  cw <- clean_report i team_lat team_lon team_callsign time_increment w ;;
  Ok (inject i time_increment (fst cw) (snd cw)).

(** Lines 71 to 141: the [for] loop over
    [enumerate(zip(team_coords, team_callsigns))], from index [i]. *)
Fixpoint report_loop (i : nat) (teams : list ((Q * Q) * string))
    (time_increment : Z) (records : list report) (w : rng)
  : result (list report * rng) :=
  match teams with
  | [] => Ok (records, w)
  | ((team_lat, team_lon), team_callsign) :: teams' =>
      rw <- loop_body i team_lat team_lon team_callsign time_increment w ;;
      report_loop (S i) teams' time_increment (records ++ [fst rw]) (snd rw)
  end.

(** Lines 17 and 18: [np.random.seed(seed)] and [random.seed(seed)]
    replace the state of one generator each. *)
Definition np_random_seed (z : Z) (w : rng) : rng := (np_seed NR z, snd w).
Definition random_seed (z : Z) (w : rng) : rng := (fst w, py_seed PR z).

(** The whole script, started with the generators in state [w0]:
    [Ok records] when it reaches [df.to_csv] with these rows, [Raise e]
    when it stops on an exception before writing anything. *)
Definition main (w0 : rng) : result (list report) :=
  let w1 := np_random_seed (seed cfg) w0 in
  let w2 := random_seed (seed cfg) w1 in
  let '(n0, p0) := w2 in
  let '(team_coords, team_callsigns, attempts, n1) := sampler n0 in
  if (List.length team_coords <? num_points cfg)%nat
  then Raise (RuntimeError placement_message)
  else
    let '(minutes, p1) := py_randint PR 1 10 p0 in
    let time_increment := timedelta_minutes minutes in
    rw <- report_loop 0 (combine team_coords team_callsigns) time_increment
            [] (n1, p1) ;;
    Ok (fst rw).

End Generator.

(* ================================================================== *)
(** ** datagenerators/generate_field_reports_batch_2.py *)

(** The second day of the mission, on the same clock. *)
Definition datetime_2025_08_22 (hour minute second : Z) : Z :=
  (86400 + hour * 3600 + minute * 60 + second)%Z.

(** The named constants of the second script.  It has no solar storm: the
    two ends of the window are not read by [main_2]. *)
Definition batch_2 : Config := {|
  seed := 202;
  LAT_MIN := 37.42 - 0.1;
  LAT_MAX := 37.42 + 0.1;
  LON_MIN := -119.05 - 0.15;
  LON_MAX := -119.05 + 0.15;
  beacon_lat := 37.42;
  beacon_lon := -119.05;
  dem_file := "data/sierra_dem.tif";
  num_points := 200;
  min_dist_to_beacon_m := 400;
  min_dist_between_teams_m := 500;
  max_attempts := 20000;
  start_time := datetime_2025_08_22 6 0 0;
  storm_begin := 1;
  storm_end := 0
|}.

Section Generator2.

Variable L : Library.
Variable NR : NumpyRandom.
Variable PR : PyRandom.
Variable cfg : Config.

(** [f"GRID{str(n).zfill(3)}"] *)
Definition grid_callsign (n : nat) : string := ("GRID" ++ zfill (str n) 3)%string.

(** Lines 43 to 63, the [while] loop: that of the first script, with the
    callsigns of line 62. *)
Fixpoint sampling_loop_2 (fuel : nat)
    (team_coords : list (Q * Q)) (team_callsigns : list string)
    (attempts : nat) (s : np_state NR)
  : list (Q * Q) * list string * nat * np_state NR :=
  if (List.length team_coords <? num_points cfg)%nat
     && (attempts <? max_attempts cfg)%nat
  then
    match fuel with
    | O => (team_coords, team_callsigns, attempts, s)
    | S fuel' =>
        let '(lat, s1) := np_uniform NR (LAT_MIN cfg) (LAT_MAX cfg) s in
        let '(lon, s2) := np_uniform NR (LON_MIN cfg) (LON_MAX cfg) s1 in
        let dist_to_beacon :=
          geodesic_meters L (lat, lon) (beacon_lat cfg, beacon_lon cfg) in
        if ltb dist_to_beacon (min_dist_to_beacon_m cfg)
        then sampling_loop_2 fuel' team_coords team_callsigns (attempts + 1) s2
        else if too_close L cfg lat lon team_coords
        then sampling_loop_2 fuel' team_coords team_callsigns (attempts + 1) s2
        else
          let team_coords' := team_coords ++ [(lat, lon)] in
          let team_callsigns' :=
            team_callsigns ++ [grid_callsign (List.length team_coords')] in
          sampling_loop_2 fuel' team_coords' team_callsigns' (attempts + 1) s2
    end
  else (team_coords, team_callsigns, attempts, s).

Definition sampler_2 (s : np_state NR)
  : list (Q * Q) * list string * nat * np_state NR :=
  sampling_loop_2 (max_attempts cfg) [] [] 0 s.

(** Lines 125 to 136: the row appended, with the report ids going on
    from those of the first batch. *)
Definition store_record_2 (i : nat) (r : report) (c : cells) : report :=
  {| report_id := i + 201;
     timestamp := timestamp r;
     team_callsign := c_callsign c;
     latitude := latitude r;
     longitude := longitude r;
     elevation_m := elevation_m r;
     wind_direction_deg := c_wind_direction_deg c;
     ambient_temp_c := ambient_temp_c r;
     battery_level_percent := c_battery_level_percent c;
     signal_strength := c_signal_strength c |}.

(** Lines 75 to 136, the body of the [for] loop.  Lines 75 to 98 are lines
    72 to 96 of the first script: the variables they set are those of
    [clean_report]; lines 100 to 107 are the general messiness, for every
    report. *)
Definition loop_body_2 (i : nat) (team_lat team_lon : Q) (team_callsign : string)
    (time_increment : Z) (w : rng NR PR) : result (report * rng NR PR) :=
  cw <- clean_report L NR PR cfg i team_lat team_lon team_callsign time_increment w ;;
  let '(c, w') := general_messiness NR PR (cells_of (fst cw)) (snd cw) in
  Ok (store_record_2 i (fst cw) c, w').

Fixpoint report_loop_2 (i : nat) (teams : list ((Q * Q) * string))
    (time_increment : Z) (records : list report) (w : rng NR PR)
  : result (list report * rng NR PR) :=
  match teams with
  | [] => Ok (records, w)
  | ((team_lat, team_lon), team_callsign) :: teams' =>
      rw <- loop_body_2 i team_lat team_lon team_callsign time_increment w ;;
      report_loop_2 (S i) teams' time_increment (records ++ [fst rw]) (snd rw)
  end.

(** The whole second script. *)
Definition main_2 (w0 : rng NR PR) : result (list report) :=
  let w1 := np_random_seed NR PR (seed cfg) w0 in
  let w2 := random_seed NR PR (seed cfg) w1 in
  let '(n0, p0) := w2 in
  let '(team_coords, team_callsigns, attempts, n1) := sampler_2 n0 in
  if (List.length team_coords <? num_points cfg)%nat
  then Raise (RuntimeError (placement_message cfg))
  else
    let '(minutes, p1) := py_randint PR 1 5 p0 in
    let time_increment := timedelta_minutes minutes in
    rw <- report_loop_2 0 (combine team_coords team_callsigns) time_increment
            [] (n1, p1) ;;
    Ok (fst rw).

End Generator2.

(* ================================================================== *)
(** ** datagenerators/generate_historical_data.py *)

(** The named constants of the script of the historical mission, which has
    neither timestamps nor a solar storm: [start_time] and the two ends of
    the window are not read by [main_historical]. *)
Definition historical : Config := {|
  seed := 42;
  LAT_MIN := 37.1;
  LAT_MAX := 37.6;
  LON_MIN := -119.4;
  LON_MAX := -118.8;
  beacon_lat := 37.35;
  beacon_lon := -119.1;
  dem_file := "data/sierra_dem.tif";
  num_points := 400;
  min_dist_to_beacon_m := 800;
  min_dist_between_teams_m := 500;
  max_attempts := 10000;
  start_time := 0;
  storm_begin := 1;
  storm_end := 0
|}.

(** One row of the historical data frame. *)
Record history_row : Type := {
  h_report_id : nat;
  h_team_callsign : string;
  h_team_lat : Q;
  h_team_lon : Q;
  h_beacon_lat : Q;
  h_beacon_lon : Q;
  h_signal_strength : value
}.

Section Historical.

Variable L : Library.
Variable NR : NumpyRandom.
Variable PR : PyRandom.
Variable cfg : Config.

(** Lines 85 to 119, the body of the [for] loop. *)
Definition history_body (i : nat) (team_lat team_lon : Q) (team_call_sign : string)
    (n : np_state NR) : result (history_row * np_state NR) :=
  ground <- elevation_float L cfg team_lat team_lon ;;
  let team_elev := ground + 120 in
  let team_elev := Py.min team_elev 4000 in
  beacon_elev <- elevation_float L cfg (beacon_lat cfg) (beacon_lon cfg) ;;
  rss <- compute_rss L NR (beacon_lat cfg) (beacon_lon cfg) beacon_elev
           team_lat team_lon team_elev (dem_file cfg) (-30) 0.2 (-120) n ;;
  let '(signal_strength, blockage_m, snr, n1) := rss in
  Ok ({| h_report_id := i + 1;
         h_team_callsign := team_call_sign;
         h_team_lat := team_lat;
         h_team_lon := team_lon;
         h_beacon_lat := beacon_lat cfg;
         h_beacon_lon := beacon_lon cfg;
         h_signal_strength := signal_strength |}, n1).

Fixpoint history_loop (i : nat) (teams : list ((Q * Q) * string))
    (records : list history_row) (n : np_state NR)
  : result (list history_row * np_state NR) :=
  match teams with
  | [] => Ok (records, n)
  | ((team_lat, team_lon), team_call_sign) :: teams' =>
      rn <- history_body i team_lat team_lon team_call_sign n ;;
      history_loop (S i) teams' (records ++ [fst rn]) (snd rn)
  end.

(** The script from its line 44 on, with the file of the raster in place
    (lines 32 to 40 fetch it over the network when it is missing).  The
    [while] loop of lines 58 to 77 is that of the first script, word for
    word: [sampler]. *)
Definition main_historical (w0 : rng NR PR) : result (list history_row) :=
  let w1 := np_random_seed NR PR (seed cfg) w0 in
  let w2 := random_seed NR PR (seed cfg) w1 in
  let '(n0, p0) := w2 in
  let '(team_coords, team_callsigns, attempts, n1) := sampler L NR cfg n0 in
  if (List.length team_coords <? num_points cfg)%nat
  then Raise (RuntimeError (placement_message cfg))
  else
    rn <- history_loop 0 (combine team_coords team_callsigns) [] n1 ;;
    Ok (fst rn).

End Historical.

(* ================================================================== *)
(** ** The vocabulary of the specification *)

(** The obstruction at the [i]-th point of the path, in the words of the
    specification: [max(0, terrain_elevation - line_of_sight_elevation)]. *)
Definition sample_obstruction (src : dataset)
    (tx_lat tx_lon tx_elev rx_lat rx_lon rx_elev : Q) (num i : nat) : Q :=
  let lat := nth i (Np.linspace tx_lat rx_lat num) 0 in
  let lon := nth i (Np.linspace tx_lon rx_lon num) 0 in
  let line_of_sight_elevation := nth i (Np.linspace tx_elev rx_elev num) 0 in
  let terrain_elevation := ds_band1 src lon lat in
  Qmax 0 (terrain_elevation - line_of_sight_elevation).

(** What the general messiness may do to the four variables. *)
Definition messy (c c' : cells) : Prop :=
  (c_callsign c' = c_callsign c
   \/ In (c_callsign c') ["Alpha"; "alfa"; "bravo"]%string)
  /\ (c_signal_strength c' = c_signal_strength c
      \/ c_signal_strength c' = PyNaN)
  /\ (c_wind_direction_deg c' = c_wind_direction_deg c
      \/ exists t, In t ["?"; "N/A"; EmptyString]%string
                   /\ c_wind_direction_deg c' = PyStr t)
  /\ (c_battery_level_percent c' = c_battery_level_percent c
      \/ c_battery_level_percent c' = PyNaN).

(** The number that a callsign of the sampler carries: the digits after
    [TEAM], read as a decimal number. *)
Definition callsign_number (s : string) : option nat :=
  match s with
  | String "T" (String "E" (String "A" (String "M" digits))) =>
      option_map Nat.of_uint (NilEmpty.uint_of_string digits)
  | _ => None
  end.

Section Vocabulary.

Variable L : Library.
Variable NR : NumpyRandom.
Variable cfg : Config.

(** What the two checks of the loop establish for an accepted point, with
    the distances as the loop measures them: from the candidate to the
    beacon, and from the candidate to a team placed before it. *)
Definition far_from_beacon (p : Q * Q) : Prop :=
  min_dist_to_beacon_m cfg <= geodesic_meters L p (beacon_lat cfg, beacon_lon cfg).

Definition apart_from (p : Q * Q) (earlier : list (Q * Q)) : Prop :=
  forall q, In q earlier ->
            min_dist_between_teams_m cfg <= geodesic_meters L p q.

(** The invariant of [team_coords], which only grows at its end. *)
Inductive placed_ok : list (Q * Q) -> Prop :=
| placed_nil : placed_ok []
| placed_snoc (team_coords : list (Q * Q)) (p : Q * Q) :
    placed_ok team_coords -> far_from_beacon p -> apart_from p team_coords ->
    placed_ok (team_coords ++ [p]).

(** The number of teams the sampler of the script places. *)
Definition placed : nat :=
  List.length (fst (fst (fst (sampler L NR cfg (np_seed NR (seed cfg)))))).

End Vocabulary.

(* ================================================================== *)
(** ** A small concrete world, to run the model on *)

Module Toy.

(** A raster over the bounding box of the mission: the ground rises
    towards the north, with a ridge between longitudes -119.2 and -119.1;
    outside its extent the reader yields the fill value -9999. *)
Definition covers (x y : Q) : bool :=
  Qle_bool (-119.4) x && Qle_bool x (-118.8)
  && Qle_bool 37.1 y && Qle_bool y 37.6.

Definition dem : dataset := {|
  ds_covers := covers;
  ds_band1 := fun x y =>
    if covers x y
    then if Qle_bool (-119.2) x && Qle_bool x (-119.1)
         then 3000
         else 1000 + 1000 * (y - 37.1)
    else -9999
|}.

Definition abs_diff (a b : Q) : Q := Qmax (a - b) (b - a).

(** Number of decimal digits of the integer part, minus one. *)
Definition digits10 (q : Q) : Q :=
  inject_Z (Z.of_nat (String.length (str (Z.to_nat (Qfloor q)))) - 1).

Definition two_digits (z : Z) : string := zfill (str (Z.to_nat z)) 2.

(** ISO format of a time in August 2025. *)
Definition iso (t : Z) : string :=
  ("2025-08-" ++ two_digits (21 + t / 86400)
   ++ "T" ++ two_digits ((t mod 86400) / 3600)
   ++ ":" ++ two_digits ((t mod 3600) / 60)
   ++ ":" ++ two_digits (t mod 60))%string.

Definition library : Library := {|
  geodesic_meters := fun a b =>
    111000 * (abs_diff (fst a) (fst b) + abs_diff (snd a) (snd b));
  log10 := digits10;
  rasterio_open := fun path =>
    if String.eqb path "data/sierra_dem.tif" then Ok dem
    else Raise (RasterioIOError path);
  isoformat := iso
|}.

(** A linear congruential generator; a draw is the new state over the
    modulus, a fraction in [[0, 1)]. *)
Definition modulus : Z := 65536.
Definition next (s : Z) : Z := ((25173 * s + 13849) mod modulus)%Z.
Definition unit (s : Z) : Q := inject_Z (next s) / inject_Z modulus.

Definition randint (low high s : Z) : Z * Z :=
  ((low + next s mod (high - low))%Z, next s).

Lemma randint_range low high s :
  (low < high)%Z -> (low <= fst (randint low high s) < high)%Z.
Proof.
  intros H. unfold randint. cbn [fst].
  pose proof (Z.mod_pos_bound (next s) (high - low)). lia.
Qed.

Definition numpy_random : NumpyRandom := {|
  np_state := Z;
  np_seed := fun z => (z mod modulus)%Z;
  np_uniform := fun low high s => (low + (high - low) * unit s, next s);
  np_normal := fun loc scale s => (loc + scale * (6 * unit s - 3), next s);
  np_randint := randint;
  np_randint_range := randint_range
|}.

Definition randbelow (n : nat) (s : Z) : nat * Z :=
  (Z.to_nat (next s mod Z.of_nat n), next s).

Lemma randint_closed_range a b s :
  (a <= b)%Z -> (a <= fst (randint a (b + 1) s) <= b)%Z.
Proof.
  intros H. pose proof (randint_range a (b + 1) s). lia.
Qed.

Lemma randbelow_range n s :
  (0 < n)%nat -> (fst (randbelow n s) < n)%nat.
Proof.
  intros H. unfold randbelow. cbn [fst].
  pose proof (Z.mod_pos_bound (next s) (Z.of_nat n)). lia.
Qed.

Definition python_random : PyRandom := {|
  py_state := Z;
  py_seed := fun z => (z mod modulus)%Z;
  py_random := fun s => (unit s, next s);
  py_randint := fun a b s => randint a (b + 1) s;
  py_randbelow := randbelow;
  py_randint_range := randint_closed_range;
  py_randbelow_range := randbelow_range
|}.

(** A generator whose normal draw is always zero (the zero-noise
    source), otherwise as [numpy_random]. *)
Definition quiet_numpy_random : NumpyRandom := {|
  np_state := Z;
  np_seed := fun z => (z mod modulus)%Z;
  np_uniform := fun low high s => (low + (high - low) * unit s, next s);
  np_normal := fun loc scale s => (loc, next s);
  np_randint := randint;
  np_randint_range := randint_range
|}.

(** A small mission: three teams, a generous budget of attempts. *)
Definition small : Config := {|
  seed := 101;
  LAT_MIN := 37.1;
  LAT_MAX := 37.6;
  LON_MIN := -119.4;
  LON_MAX := -118.8;
  beacon_lat := 37.42;
  beacon_lon := -119.05;
  dem_file := "data/sierra_dem.tif";
  num_points := 3;
  min_dist_to_beacon_m := 1609.34;
  min_dist_between_teams_m := 2011.68;
  max_attempts := 20;
  start_time := datetime_2025_08_21 6 0 0;
  storm_begin := datetime_2025_08_21 8 0 0;
  storm_end := datetime_2025_08_21 9 30 0
|}.

End Toy.

(** Two missions that ask for two teams within one attempt: with no
    minimum distance to the beacon the only candidate is accepted, with a
    very large one it is rejected. *)
Definition one_attempt (min_dist_to_beacon_m : Q) : Config := {|
  seed := 101;
  LAT_MIN := 37.1;
  LAT_MAX := 37.6;
  LON_MIN := -119.4;
  LON_MAX := -118.8;
  beacon_lat := 37.42;
  beacon_lon := -119.05;
  dem_file := "data/sierra_dem.tif";
  num_points := 2;
  min_dist_to_beacon_m := min_dist_to_beacon_m;
  min_dist_between_teams_m := 2011.68;
  max_attempts := 1;
  start_time := datetime_2025_08_21 6 0 0;
  storm_begin := datetime_2025_08_21 8 0 0;
  storm_end := datetime_2025_08_21 9 30 0
|}.

(** A clean row, before fault injection. *)
Definition sample_row : report := {|
  report_id := 13;
  timestamp := "2025-08-21T08:00:00";
  team_callsign := "TEAM013";
  latitude := 37.2;
  longitude := -119;
  elevation_m := 1220;
  wind_direction_deg := PyFloat 270;
  ambient_temp_c := 24.5;
  battery_level_percent := PyFloat 80;
  signal_strength := PyFloat (-95)
|}.

(* ================================================================== *)
(** * Properties *)

(** ** Comparisons, arrays *)

Lemma ltb_lt (a b : Q) : ltb a b = true <-> a < b.
Proof.
  unfold ltb. rewrite negb_true_iff. split.
  - intros H. apply Qnot_le_lt. intros Hle.
    apply Qle_bool_iff in Hle. congruence.
  - intros H. destruct (Qle_bool b a) eqn:E; [|reflexivity].
    apply Qle_bool_iff in E. apply Qlt_not_le in H. contradiction.
Qed.

Lemma ltb_ge (a b : Q) : ltb a b = false <-> b <= a.
Proof.
  unfold ltb. rewrite negb_false_iff. apply Qle_bool_iff.
Qed.

Lemma linspace_length (start stop : Q) (num : nat) :
  List.length (Np.linspace start stop num) = num.
Proof.
  destruct num as [|[|n]]; cbn [Np.linspace]; try reflexivity.
  rewrite length_app, length_map, length_seq. cbn. lia.
Qed.

Lemma nth_map_in {A B : Type} (f : A -> B) (l : list A) (d : A) (d' : B) :
  forall i, (i < List.length l)%nat -> nth i (map f l) d' = f (nth i l d).
Proof.
  induction l as [|a l IH]; intros [|i] H; cbn in *; try lia.
  - reflexivity.
  - apply IH. lia.
Qed.

(** The points of [linspace] are the linear interpolation between its
    ends. *)
Lemma linspace_nth (start stop : Q) (num i : nat) :
  (2 <= num)%nat -> (i < num)%nat ->
  nth i (Np.linspace start stop num) 0
  == start + inject_Z (Z.of_nat i) * ((stop - start) / inject_Z (Z.of_nat (num - 1))).
Proof.
  intros Hnum Hi.
  destruct num as [|[|n]]; try lia.
  cbn [Np.linspace].
  replace (S (S n) - 1)%nat with (S n) by lia.
  assert (Hd : ~ inject_Z (Z.of_nat (S n)) == 0).
  { intros H. unfold Qeq in H. cbn in H. lia. }
  destruct (Nat.eq_dec i (S n)) as [->|Hne].
  - rewrite app_nth2; rewrite length_map, length_seq; [|lia].
    rewrite Nat.sub_diag. cbn [nth]. field. exact Hd.
  - rewrite app_nth1 by (rewrite length_map, length_seq; lia).
    rewrite (nth_map_in _ _ O) by (rewrite length_seq; lia).
    rewrite seq_nth by lia. cbn [Nat.add]. ring.
Qed.

Lemma sub_same_length (a b : list Q) :
  List.length a = List.length b ->
  Np.sub a b = Ok (map (fun p => fst p - snd p) (combine a b)).
Proof.
  intros H. unfold Np.sub. rewrite H, Nat.eqb_refl. reflexivity.
Qed.

Lemma fold_max_in (xs : list Q) : forall x, In (fold_left Qmax xs x) (x :: xs).
Proof.
  induction xs as [|y ys IH]; intros x; cbn [fold_left].
  - left; reflexivity.
  - assert (Hmax : Qmax x y = x \/ Qmax x y = y).
    { unfold Qmax, GenericMinMax.gmax. destruct (x ?= y); auto. }
    destruct (IH (Qmax x y)) as [H|H].
    + destruct Hmax as [Hm|Hm]; rewrite Hm in H at 1; [left|right; left]; exact H.
    + right; right; exact H.
Qed.

Lemma fold_max_lower (xs : list Q) : forall x, x <= fold_left Qmax xs x.
Proof.
  induction xs as [|y ys IH]; intros x; cbn [fold_left].
  - apply Qle_refl.
  - eapply Qle_trans; [apply Q.le_max_l | apply IH].
Qed.

Lemma fold_max_upper (xs : list Q) :
  forall x y, In y (x :: xs) -> y <= fold_left Qmax xs x.
Proof.
  induction xs as [|z zs IH]; intros x y Hin; cbn [fold_left].
  - destruct Hin as [->|[]]. apply Qle_refl.
  - destruct Hin as [->|[->|Hin]].
    + eapply Qle_trans; [apply Q.le_max_l | apply fold_max_lower].
    + eapply Qle_trans; [apply Q.le_max_r | apply fold_max_lower].
    + apply IH. right; exact Hin.
Qed.

(** ** The line-of-sight analyzer *)

Section LineOfSight.

Variable L : Library.

Lemma obstructions_nth (src : dataset) :
  forall (lons lats elevs : list Q) (i : nat),
    List.length lons = List.length lats ->
    List.length lats = List.length elevs ->
    (i < List.length elevs)%nat ->
    nth i (Np.maximum (map (fun p => fst p - snd p)
                         (combine (sample src (combine lons lats)) elevs)) 0) 0
    = Qmax (ds_band1 src (nth i lons 0) (nth i lats 0) - nth i elevs 0) 0.
Proof.
  induction lons as [|x lons IH]; intros [|y lats] [|e elevs] i H1 H2 Hi;
    cbn in H1, H2, Hi; try lia.
  destruct i as [|i]; cbn.
  - reflexivity.
  - apply IH; lia.
Qed.

Lemma obstructions_length (src : dataset) (lons lats elevs : list Q) :
  List.length lons = List.length lats ->
  List.length lats = List.length elevs ->
  List.length (Np.maximum (map (fun p => fst p - snd p)
                         (combine (sample src (combine lons lats)) elevs)) 0)
  = List.length elevs.
Proof.
  intros H1 H2. unfold Np.maximum, sample.
  rewrite !length_map, length_combine, length_map, length_combine. lia.
Qed.

(** The analyzer returns whenever the raster opens and there is at least
    one sample. *)
Lemma line_of_sight_blockage_returns
    (tx_lat tx_lon tx_elev rx_lat rx_lon rx_elev : Q)
    (dem_path : string) (num : nat) (src : dataset) :
  rasterio_open L dem_path = Ok src -> (1 <= num)%nat ->
  exists x xs,
    Np.maximum (map (fun p => fst p - snd p)
      (combine (sample src (combine (Np.linspace tx_lon rx_lon num)
                                    (Np.linspace tx_lat rx_lat num)))
               (Np.linspace tx_elev rx_elev num))) 0 = x :: xs
    /\ line_of_sight_blockage L tx_lat tx_lon tx_elev rx_lat rx_lon rx_elev
         dem_path num
       = Ok (Qeq_bool (fold_left Qmax xs x) 0, fold_left Qmax xs x).
Proof.
  intros Hopen Hnum.
  unfold line_of_sight_blockage. rewrite Hopen. cbn [rbind].
  rewrite sub_same_length
    by (unfold sample; rewrite length_map, length_combine, !linspace_length; lia).
  cbn [rbind].
  pose proof (obstructions_length src (Np.linspace tx_lon rx_lon num)
                (Np.linspace tx_lat rx_lat num) (Np.linspace tx_elev rx_elev num)) as Hlen.
  rewrite !linspace_length in Hlen. specialize (Hlen eq_refl eq_refl).
  destruct (Np.maximum _ 0) as [|x xs] eqn:E.
  - cbn in Hlen. lia.
  - exists x, xs. split; reflexivity.
Qed.

(** C3.  For every transmitter, receiver and terrain, with at least one
    sample on the path, the analyzer's [obstruction_m] is the maximum of
    the per-sample obstructions [max(0, terrain - line of sight)]: it is
    the obstruction of one of the samples and no sample has a larger one
    (the worst single obstruction, not a sum); and [clear] is true
    exactly when [obstruction_m] is 0. *)
Theorem los_obstruction_is_worst_sample
    (tx_lat tx_lon tx_elev rx_lat rx_lon rx_elev : Q)
    (dem_path : string) (num : nat) (src : dataset) :
  rasterio_open L dem_path = Ok src -> (1 <= num)%nat ->
  exists (clear : bool) (obstruction_m : Q),
    line_of_sight_blockage L tx_lat tx_lon tx_elev rx_lat rx_lon rx_elev
      dem_path num = Ok (clear, obstruction_m)
    /\ (exists i, (i < num)%nat /\
          obstruction_m == sample_obstruction src tx_lat tx_lon tx_elev
                             rx_lat rx_lon rx_elev num i)
    /\ (forall i, (i < num)%nat ->
          sample_obstruction src tx_lat tx_lon tx_elev
            rx_lat rx_lon rx_elev num i <= obstruction_m)
    /\ (clear = true <-> obstruction_m == 0).
Proof.
  intros Hopen Hnum.
  destruct (line_of_sight_blockage_returns tx_lat tx_lon tx_elev
              rx_lat rx_lon rx_elev dem_path num src Hopen Hnum)
    as (x & xs & E & Hrun).
  pose proof (obstructions_length src (Np.linspace tx_lon rx_lon num)
                (Np.linspace tx_lat rx_lat num) (Np.linspace tx_elev rx_elev num)) as Hlen.
  rewrite !linspace_length in Hlen. specialize (Hlen eq_refl eq_refl).
  assert (Hnth : forall i, (i < num)%nat ->
            nth i (x :: xs) 0
            == sample_obstruction src tx_lat tx_lon tx_elev
                 rx_lat rx_lon rx_elev num i).
  { intros i Hi. rewrite <- E.
    rewrite obstructions_nth by (rewrite !linspace_length; lia).
    unfold sample_obstruction. apply Q.max_comm. }
  exists (Qeq_bool (fold_left Qmax xs x) 0), (fold_left Qmax xs x).
  split; [exact Hrun|]. split; [|split].
  - destruct (In_nth _ _ 0 (fold_max_in xs x)) as (i & Hi & Hi').
    rewrite <- E, Hlen in Hi. exists i. split; [exact Hi|].
    rewrite <- Hi'. apply Hnth. exact Hi.
  - intros i Hi. rewrite <- (Hnth i Hi).
    apply fold_max_upper. apply nth_In. rewrite <- E, Hlen. exact Hi.
  - apply Qeq_bool_iff.
Qed.

End LineOfSight.

(** The path of [line_of_sight_blockage] crosses two ridges here, 500 m
    and 1500 m above the line of sight: the analyzer reports 1500, the
    worst of them, and not their sum. *)
Example los_two_ridges :
  let src := {| ds_covers := fun _ _ => true;
                ds_band1 := fun x _ => if Qeq_bool x 1 then 1500
                                       else if Qeq_bool x 3 then 2500
                                       else 0 |} in
  let lib := {| geodesic_meters := fun _ _ => 1; log10 := fun q => q;
                rasterio_open := fun _ => Ok src;
                isoformat := fun _ => EmptyString |} in
  exists obstruction_m,
    line_of_sight_blockage lib 0 0 1000 0 4 1000 "dem" 5 = Ok (false, obstruction_m)
    /\ obstruction_m == 1500.
Proof. eexists. split; vm_compute; reflexivity. Qed.

Lemma los_obstruction_is_worst_sample_witness :
  exists clear obstruction_m,
    line_of_sight_blockage Toy.library 37.2 (-119) 1200 37.2 (-119.3) 1300
      "data/sierra_dem.tif" 5 = Ok (clear, obstruction_m)
    /\ (clear = true <-> obstruction_m == 0).
Proof.
  destruct (los_obstruction_is_worst_sample Toy.library
              37.2 (-119) 1200 37.2 (-119.3) 1300 "data/sierra_dem.tif" 5 Toy.dem)
    as (clear & obstruction_m & Hrun & _ & _ & Hclear).
  - reflexivity.
  - lia.
  - exists clear, obstruction_m. split; assumption.
Defined.

(** ** The signal propagation model *)

Section Propagation.

Variable L : Library.
Variable NR : NumpyRandom.

(** [compute_rss] returns whenever the raster opens: the analyzer gives
    an obstruction depth and the result is the floor check of the signal
    of line 35. *)
Lemma compute_rss_returns
    (tx_lat tx_lon tx_elev rx_lat rx_lon rx_elev : Q) (dem_path : string)
    (base_strength k noise_floor : Q) (s : np_state NR) (src : dataset) :
  rasterio_open L dem_path = Ok src ->
  exists (los_clear : bool) (obstruction_m : Q),
    line_of_sight_blockage L tx_lat tx_lon tx_elev rx_lat rx_lon rx_elev
      dem_path 100 = Ok (los_clear, obstruction_m)
    /\ compute_rss L NR tx_lat tx_lon tx_elev rx_lat rx_lon rx_elev dem_path
         base_strength k noise_floor s
       = Ok (floor_check
               (base_strength
                - 20 * log10 L (geodesic_meters L (tx_lat, tx_lon) (rx_lat, rx_lon))
                + LOS_Penalty los_clear k obstruction_m
                + fst (np_normal NR 0 2 s))
               obstruction_m noise_floor,
             snd (np_normal NR 0 2 s)).
Proof.
  intros Hopen.
  destruct (line_of_sight_blockage_returns L tx_lat tx_lon tx_elev
              rx_lat rx_lon rx_elev dem_path 100 src Hopen)
    as (x & xs & _ & Hlos); [lia|].
  exists (Qeq_bool (fold_left Qmax xs x) 0), (fold_left Qmax xs x).
  split; [exact Hlos|].
  unfold compute_rss. rewrite Hlos. cbn [rbind].
  destruct (np_normal NR 0 2 s) as [Noise s']. reflexivity.
Qed.

(** C1.  For a transmitter and a receiver at positive geodesic distance
    [d], when the noise drawn is zero, [compute_rss] works on the raw
    signal [base_strength - 20*log10(d) + los_penalty], where
    [los_penalty] is [-k] times the analyzer's obstruction depth when the
    line of sight is not clear, and 0 when it is clear. *)
Theorem compute_rss_zero_noise
    (tx_lat tx_lon tx_elev rx_lat rx_lon rx_elev : Q) (dem_path : string)
    (base_strength k noise_floor : Q) (s : np_state NR) (src : dataset) :
  rasterio_open L dem_path = Ok src ->
  0 < geodesic_meters L (tx_lat, tx_lon) (rx_lat, rx_lon) ->
  fst (np_normal NR 0 2 s) == 0 ->
  exists (los_clear : bool) (obstruction_m raw_signal : Q),
    line_of_sight_blockage L tx_lat tx_lon tx_elev rx_lat rx_lon rx_elev
      dem_path 100 = Ok (los_clear, obstruction_m)
    /\ compute_rss L NR tx_lat tx_lon tx_elev rx_lat rx_lon rx_elev dem_path
         base_strength k noise_floor s
       = Ok (floor_check raw_signal obstruction_m noise_floor,
             snd (np_normal NR 0 2 s))
    /\ raw_signal
       == base_strength
          - 20 * log10 L (geodesic_meters L (tx_lat, tx_lon) (rx_lat, rx_lon))
          + (if los_clear then 0 else - k * obstruction_m).
Proof.
  intros Hopen _ Hnoise.
  destruct (compute_rss_returns tx_lat tx_lon tx_elev rx_lat rx_lon rx_elev
              dem_path base_strength k noise_floor s src Hopen)
    as (los_clear & obstruction_m & Hlos & Hrun).
  exists los_clear, obstruction_m.
  eexists. split; [exact Hlos|]. split; [exact Hrun|].
  unfold LOS_Penalty. rewrite Hnoise. ring.
Qed.

(** C2.  For every call of [compute_rss] on a raster that opens, the
    returned snr is the signal before the floor check minus
    [noise_floor]; the returned signal strength is [np.nan] exactly when
    that snr is negative, and the signal before the check otherwise; the
    obstruction depth of the analyzer and the snr are returned in both
    cases. *)
Theorem compute_rss_floor_check
    (tx_lat tx_lon tx_elev rx_lat rx_lon rx_elev : Q) (dem_path : string)
    (base_strength k noise_floor : Q) (s : np_state NR) (src : dataset) :
  rasterio_open L dem_path = Ok src ->
  exists (los_clear : bool) (obstruction_m raw_signal : Q)
         (signal_strength : value) (snr : Q) (s' : np_state NR),
    line_of_sight_blockage L tx_lat tx_lon tx_elev rx_lat rx_lon rx_elev
      dem_path 100 = Ok (los_clear, obstruction_m)
    /\ raw_signal
       = base_strength
         - 20 * log10 L (geodesic_meters L (tx_lat, tx_lon) (rx_lat, rx_lon))
         + LOS_Penalty los_clear k obstruction_m
         + fst (np_normal NR 0 2 s)
    /\ compute_rss L NR tx_lat tx_lon tx_elev rx_lat rx_lon rx_elev dem_path
         base_strength k noise_floor s
       = Ok (signal_strength, obstruction_m, snr, s')
    /\ snr = raw_signal - noise_floor
    /\ (signal_strength = PyNaN <-> snr < 0)
    /\ (~ snr < 0 -> signal_strength = PyFloat raw_signal).
Proof.
  intros Hopen.
  destruct (compute_rss_returns tx_lat tx_lon tx_elev rx_lat rx_lon rx_elev
              dem_path base_strength k noise_floor s src Hopen)
    as (los_clear & obstruction_m & Hlos & Hrun).
  exists los_clear, obstruction_m.
  eexists. unfold floor_check in Hrun.
  destruct (ltb _ 0) eqn:E in Hrun.
  - do 3 eexists. split; [exact Hlos|]. split; [reflexivity|].
    split; [exact Hrun|]. split; [reflexivity|].
    apply ltb_lt in E. split; [split; auto|]. intros H; contradiction.
  - do 3 eexists. split; [exact Hlos|]. split; [reflexivity|].
    split; [exact Hrun|]. split; [reflexivity|].
    apply ltb_ge in E. split; [split|].
    + discriminate.
    + intros H. apply Qlt_not_le in H. contradiction.
    + reflexivity.
Qed.

(** C7, as the code has it.  [get_elevation] makes no check of the
    extent and has no error of its own: when [rasterio.open] raises, the
    same exception leaves [get_elevation]; when the raster opens,
    [get_elevation] returns the value the raster yields at the point,
    whether the raster covers the point or not. *)
Theorem get_elevation_no_extent_check (lat lon : Q) (dem_path : string) :
  (forall e, rasterio_open L dem_path = Raise e ->
             get_elevation L lat lon dem_path = Raise e)
  /\ (forall src, rasterio_open L dem_path = Ok src ->
             get_elevation L lat lon dem_path = Ok (Some (ds_band1 src lon lat))).
Proof.
  unfold get_elevation. split; intros x H; rewrite H; reflexivity.
Qed.

End Propagation.

Lemma compute_rss_zero_noise_witness :
  exists los_clear obstruction_m raw_signal,
    compute_rss Toy.library Toy.quiet_numpy_random
      37.42 (-119.05) 1320 37.2 (-119) 1220 "data/sierra_dem.tif"
      (-30) 0.15 (-120) 7%Z
    = Ok (floor_check raw_signal obstruction_m (-120), Toy.next 7)
    /\ raw_signal
       == -30 - 20 * Toy.digits10 29970.00
          + (if los_clear : bool then 0 else - 0.15 * obstruction_m).
Proof.
  destruct (compute_rss_zero_noise Toy.library Toy.quiet_numpy_random
              37.42 (-119.05) 1320 37.2 (-119) 1220 "data/sierra_dem.tif"
              (-30) 0.15 (-120) 7%Z Toy.dem)
    as (los_clear & obstruction_m & raw_signal & _ & Hrun & Hraw).
  - reflexivity.
  - vm_compute. reflexivity.
  - vm_compute. reflexivity.
  - exists los_clear, obstruction_m, raw_signal. split; [exact Hrun|].
    rewrite Hraw. vm_compute. reflexivity.
Defined.

Lemma compute_rss_floor_check_witness :
  exists signal_strength obstruction_m snr s',
    compute_rss Toy.library Toy.numpy_random
      37.42 (-119.05) 1320 37.2 (-119) 1220 "data/sierra_dem.tif"
      (-30) 0.15 (-120) 7%Z
    = Ok (signal_strength, obstruction_m, snr, s')
    /\ (signal_strength = PyNaN <-> snr < 0).
Proof.
  destruct (compute_rss_floor_check Toy.library Toy.numpy_random
              37.42 (-119.05) 1320 37.2 (-119) 1220 "data/sierra_dem.tif"
              (-30) 0.15 (-120) 7%Z Toy.dem)
    as (_ & obstruction_m & _ & signal_strength & snr & s' & _ & _ & Hrun & _ & Hnan & _).
  - reflexivity.
  - exists signal_strength, obstruction_m, snr, s'. split; assumption.
Defined.

(** C7, as the specification has it, fails: the raster [Toy.dem] does not
    cover the point (0, 0), and [get_elevation] returns the fill value the
    raster yields there, a number, not an error. *)
Lemma get_elevation_outside_extent_returns :
  ~ (forall (L : Library) (lat lon : Q) (dem_path : string) (src : dataset),
        rasterio_open L dem_path = Ok src ->
        ds_covers src lon lat = false ->
        exists e, get_elevation L lat lon dem_path = Raise e).
Proof.
  intros H.
  destruct (H Toy.library 0 0 "data/sierra_dem.tif"%string Toy.dem) as [e He].
  - reflexivity.
  - reflexivity.
  - vm_compute in He. discriminate He.
Qed.

Lemma get_elevation_no_extent_check_witness :
  get_elevation Toy.library 0 0 "data/sierra_dem.tif" = Ok (Some (-9999))
  /\ get_elevation Toy.library 0 0 "missing.tif"
     = Raise (RasterioIOError "missing.tif").
Proof.
  destruct (get_elevation_no_extent_check Toy.library 0 0 "data/sierra_dem.tif")
    as [_ Hin].
  destruct (get_elevation_no_extent_check Toy.library 0 0 "missing.tif")
    as [Hout _].
  split.
  - apply (Hin Toy.dem). reflexivity.
  - apply Hout. reflexivity.
Defined.

(** ** The constrained spatial sampler *)

Section Sampler.

Variable L : Library.
Variable NR : NumpyRandom.
Variable cfg : Config.

Lemma too_close_false (lat lon : Q) (team_coords : list (Q * Q)) :
  too_close L cfg lat lon team_coords = false ->
  apart_from L cfg (lat, lon) team_coords.
Proof.
  intros H q Hq. apply ltb_ge.
  destruct (ltb (geodesic_meters L (lat, lon) q) (min_dist_between_teams_m cfg))
    eqn:E; [|reflexivity].
  assert (Ht : too_close L cfg lat lon team_coords = true).
  { unfold too_close. apply existsb_exists. exists q. split; assumption. }
  congruence.
Qed.

Lemma sampling_loop_placed_ok (fuel : nat) :
  forall team_coords team_callsigns attempts s,
    placed_ok L cfg team_coords ->
    placed_ok L cfg (fst (fst (fst (sampling_loop L NR cfg fuel team_coords
                                team_callsigns attempts s)))).
Proof.
  induction fuel as [|fuel IH]; intros team_coords team_callsigns attempts s Hok;
    cbn [sampling_loop];
    destruct ((List.length team_coords <? num_points cfg)%nat
              && (attempts <? max_attempts cfg)%nat); try exact Hok.
  destruct (np_uniform NR (LAT_MIN cfg) (LAT_MAX cfg) s) as [lat s1].
  destruct (np_uniform NR (LON_MIN cfg) (LON_MAX cfg) s1) as [lon s2].
  destruct (ltb (geodesic_meters L (lat, lon) (beacon_lat cfg, beacon_lon cfg)) (min_dist_to_beacon_m cfg))
    eqn:Hbeacon.
  - apply IH, Hok.
  - destruct (too_close L cfg lat lon team_coords) eqn:Hclose.
    + apply IH, Hok.
    + apply IH. constructor.
      * exact Hok.
      * apply ltb_ge, Hbeacon.
      * apply too_close_false, Hclose.
Qed.

Lemma placed_ok_beacon (team_coords : list (Q * Q)) :
  placed_ok L cfg team_coords -> forall p, In p team_coords -> far_from_beacon L cfg p.
Proof.
  induction 1 as [|team_coords p0 Hok IH Hfar Hapart]; intros p Hin.
  - destruct Hin.
  - apply in_app_or in Hin. destruct Hin as [Hin|[<-|[]]]; auto.
Qed.

Lemma placed_ok_later_earlier (team_coords : list (Q * Q)) :
  placed_ok L cfg team_coords ->
  forall i j p q, (i < j)%nat ->
    nth_error team_coords i = Some p -> nth_error team_coords j = Some q ->
    min_dist_between_teams_m cfg <= geodesic_meters L q p.
Proof.
  induction 1 as [|team_coords p0 Hok IH Hfar Hapart]; intros i j p q Hij Hi Hj.
  - destruct i; discriminate Hi.
  - assert (Hjlen : (j < List.length (team_coords ++ [p0]))%nat)
      by (apply nth_error_Some; congruence).
    rewrite length_app in Hjlen. cbn in Hjlen.
    rewrite nth_error_app1 in Hi by lia.
    destruct (Nat.eq_dec j (List.length team_coords)) as [->|Hne].
    + rewrite nth_error_app2, Nat.sub_diag in Hj by lia.
      cbn in Hj. injection Hj as <-.
      apply Hapart. eapply nth_error_In, Hi.
    + rewrite nth_error_app1 in Hj by lia. exact (IH i j p q Hij Hi Hj).
Qed.

(** The loop stops only when its condition is false, and with the number
    of attempts within the budget: the fuel is enough. *)
Lemma sampling_loop_exit (fuel : nat) :
  forall team_coords team_callsigns attempts s,
    (attempts <= max_attempts cfg)%nat ->
    (max_attempts cfg <= attempts + fuel)%nat ->
    let r := sampling_loop L NR cfg fuel team_coords team_callsigns attempts s in
    (snd (fst r) <= max_attempts cfg)%nat
    /\ ((num_points cfg <= List.length (fst (fst (fst r))))%nat
        \/ snd (fst r) = max_attempts cfg).
Proof.
  induction fuel as [|fuel IH]; intros team_coords team_callsigns attempts s Hle Hfuel;
    cbn [sampling_loop];
    destruct (Nat.ltb_spec (List.length team_coords) (num_points cfg));
    destruct (Nat.ltb_spec attempts (max_attempts cfg));
    cbn [andb fst snd]; try (split; [lia | (left; lia) || (right; lia)]).
  destruct (np_uniform NR (LAT_MIN cfg) (LAT_MAX cfg) s) as [lat s1].
  destruct (np_uniform NR (LON_MIN cfg) (LON_MAX cfg) s1) as [lon s2].
  destruct (ltb _ _); [apply IH; lia|].
  destruct (too_close _ _ _ _ _); apply IH; lia.
Qed.

(** C4.  In every run of the sampler, every accepted point is at
    geodesic distance at least [min_dist_to_beacon_m] from the beacon,
    and any two accepted points at different places of the list are at
    geodesic distance at least [min_dist_between_teams_m] from each
    other (the geodesic distance being symmetric). *)
Theorem sampler_distances (s : np_state NR) :
  (forall a b, geodesic_meters L a b == geodesic_meters L b a) ->
  let team_coords := fst (fst (fst (sampler L NR cfg s))) in
  (forall p, In p team_coords ->
      min_dist_to_beacon_m cfg <= geodesic_meters L p (beacon_lat cfg, beacon_lon cfg))
  /\ (forall i j p q, i <> j ->
        nth_error team_coords i = Some p -> nth_error team_coords j = Some q ->
        min_dist_between_teams_m cfg <= geodesic_meters L p q).
Proof.
  intros Hsym team_coords.
  assert (Hok : placed_ok L cfg team_coords)
    by (apply sampling_loop_placed_ok; constructor).
  split.
  - intros p Hp. exact (placed_ok_beacon _ Hok p Hp).
  - intros i j p q Hij Hi Hj.
    destruct (Nat.lt_total i j) as [Hlt|[Heq|Hgt]]; [| contradiction |].
    + rewrite Hsym. exact (placed_ok_later_earlier _ Hok i j p q Hlt Hi Hj).
    + exact (placed_ok_later_earlier _ Hok j i q p Hgt Hj Hi).
Qed.

End Sampler.

Lemma toy_geodesic_symmetric (a b : Q * Q) :
  geodesic_meters Toy.library a b == geodesic_meters Toy.library b a.
Proof.
  cbn. unfold Toy.abs_diff.
  rewrite (Q.max_comm (fst a - fst b)), (Q.max_comm (snd a - snd b)).
  reflexivity.
Qed.

Lemma sampler_distances_witness :
  let team_coords :=
    fst (fst (fst (sampler Toy.library Toy.numpy_random Toy.small 101%Z))) in
  List.length team_coords = 3%nat
  /\ forall i j p q, i <> j ->
       nth_error team_coords i = Some p -> nth_error team_coords j = Some q ->
       2011.68 <= geodesic_meters Toy.library p q.
Proof.
  split.
  - vm_compute. reflexivity.
  - apply (sampler_distances Toy.library Toy.numpy_random Toy.small 101%Z).
    exact toy_geodesic_symmetric.
Defined.

(** ** The script: exhaustion of the sampler *)

Section Exhaustion.

Variable L : Library.
Variable NR : NumpyRandom.
Variable PR : PyRandom.
Variable cfg : Config.

(** C6, as the code has it.  When the sampler of the script has placed
    fewer than [num_points] teams, it has made [max_attempts] attempts,
    and the script stops on a [RuntimeError] whose message names
    [num_points] and [max_attempts] (and not the number of teams placed);
    no row is written. *)
Theorem placement_exhausted_aborts (w0 : rng NR PR) :
  (placed L NR cfg < num_points cfg)%nat ->
  snd (fst (sampler L NR cfg (np_seed NR (seed cfg)))) = max_attempts cfg
  /\ main L NR PR cfg w0
     = Raise (RuntimeError
                ("Could not place " ++ str (num_points cfg)
                 ++ " teams with the given constraints after "
                 ++ str (max_attempts cfg) ++ " attempts.")%string)
  /\ forall records, main L NR PR cfg w0 <> Ok records.
Proof.
  unfold placed. intros Hfew.
  assert (Hmain : main L NR PR cfg w0 = Raise (RuntimeError (placement_message cfg))).
  { unfold main, np_random_seed, random_seed. cbn [fst snd].
    destruct (sampler L NR cfg (np_seed NR (seed cfg)))
      as [[[team_coords team_callsigns] attempts] n1].
    cbn [fst] in Hfew. apply Nat.ltb_lt in Hfew. rewrite Hfew. reflexivity. }
  split; [|split].
  - pose proof (sampling_loop_exit L NR cfg (max_attempts cfg) [] [] 0
                  (np_seed NR (seed cfg))) as Hexit.
    cbv zeta in Hexit. fold (sampler L NR cfg (np_seed NR (seed cfg))) in Hexit.
    destruct Hexit as [_ [Hfull|Hdone]]; solve [lia | assumption].
  - exact Hmain.
  - intros records. rewrite Hmain. discriminate.
Qed.

End Exhaustion.

(** C6, as the specification has it, fails: no reading of the error gives
    the number of teams placed, since a run that placed one team and a run
    that placed none stop on the same error. *)
Lemma placement_error_omits_placed_count :
  ~ (exists carried : exn -> nat,
       forall (L : Library) (NR : NumpyRandom) (PR : PyRandom) (cfg : Config)
              (w0 : rng NR PR),
         (placed L NR cfg < num_points cfg)%nat ->
         exists e, main L NR PR cfg w0 = Raise e
                   /\ carried e = placed L NR cfg).
Proof.
  intros [carried H].
  destruct (H Toy.library Toy.numpy_random Toy.python_random
              (one_attempt 0) (0%Z, 0%Z)) as (e1 & He1 & Hc1);
    [vm_compute; lia|].
  destruct (H Toy.library Toy.numpy_random Toy.python_random
              (one_attempt 1000000000) (0%Z, 0%Z)) as (e2 & He2 & Hc2);
    [vm_compute; lia|].
  vm_compute in He1, He2, Hc1, Hc2.
  injection He1 as <-. injection He2 as <-.
  congruence.
Qed.

Lemma placement_exhausted_aborts_witness :
  placed Toy.library Toy.numpy_random (one_attempt 0) = 1%nat
  /\ main Toy.library Toy.numpy_random Toy.python_random (one_attempt 0) (0%Z, 0%Z)
     = Raise (RuntimeError
                "Could not place 2 teams with the given constraints after 1 attempts.").
Proof.
  split.
  - vm_compute. reflexivity.
  - apply (placement_exhausted_aborts Toy.library Toy.numpy_random
             Toy.python_random (one_attempt 0) (0%Z, 0%Z)).
    vm_compute. lia.
Defined.

(** ** Fault injection *)

Section FaultInjection.

Variable L : Library.
Variable NR : NumpyRandom.
Variable PR : PyRandom.
Variable cfg : Config.

Lemma py_choice_in (seq : list string) (p : py_state PR) :
  seq <> [] -> In (fst (py_choice PR seq p)) seq.
Proof.
  intros Hne. unfold py_choice.
  pose proof (py_randbelow_range PR (List.length seq) p) as Hrange.
  destruct (py_randbelow PR (List.length seq) p) as [i p'].
  cbn [fst] in *. apply nth_In. apply Hrange.
  destruct seq; [congruence | cbn; lia].
Qed.

(** One step through the draws of the general messiness. *)
Ltac messiness_step :=
  match goal with
  | |- context [py_random PR ?p] => destruct (py_random PR p) as [? ?]
  | |- context [py_choice PR ?l ?p] =>
      let H := fresh "Hchoice" in
      pose proof (py_choice_in l p) as H;
      destruct (py_choice PR l p) as [? ?]
  | |- context [ltb ?a ?b] => destruct (ltb a b)
  end; cbn [fst snd] in *.

Ltac messiness_done :=
  first [ reflexivity
        | left; reflexivity
        | right; reflexivity
        | match goal with
          | H : _ <> [] -> In _ _ |- _ =>
              right;
              first [ apply H; discriminate
                    | eexists; split; [apply H; discriminate | reflexivity] ]
          end ].

Lemma general_messiness_messy (c : cells) (w : rng NR PR) :
  messy c (fst (general_messiness NR PR c w))
  /\ fst (snd (general_messiness NR PR c w)) = fst w.
Proof.
  unfold general_messiness, messy. destruct w as [n p].
  repeat messiness_step; repeat split; messiness_done.
Qed.

Lemma in_storm_closed (t : Z) :
  in_storm cfg t = true <-> (storm_begin cfg <= t <= storm_end cfg)%Z.
Proof.
  unfold in_storm. rewrite andb_true_iff, !Z.leb_le. reflexivity.
Qed.

(** The row stored keeps every column that is not one of the four
    variables of the corruption branch. *)
Lemma store_record_frame (r : report) (c : cells) :
  report_id (store_record r c) = report_id r
  /\ timestamp (store_record r c) = timestamp r
  /\ latitude (store_record r c) = latitude r
  /\ longitude (store_record r c) = longitude r
  /\ elevation_m (store_record r c) = elevation_m r
  /\ ambient_temp_c (store_record r c) = ambient_temp_c r.
Proof. repeat split. Qed.

(** C5.  For the report of index [i], the solar storm corruption fires
    exactly when the time of the report lies in the closed interval from
    [storm_begin] to [storm_end], ends included.  When it fires, the
    signal strength becomes the malformed token, the wind direction -999
    and the battery level an integer from 150 to 299; the callsign stays
    and Python's [random] makes no draw (the probabilistic rules are
    skipped).  When it does not fire, the report goes through the four
    probabilistic rules only, and [np.random] makes no draw. *)
Theorem storm_window_corruption (i : nat) (time_increment : Z)
    (r : report) (w : rng NR PR) :
  let t := current_time cfg i time_increment in
  (in_storm cfg t = true <-> (storm_begin cfg <= t <= storm_end cfg)%Z)
  /\ ((storm_begin cfg <= t <= storm_end cfg)%Z ->
      exists b : Z,
        (150 <= b < 300)%Z
        /\ inject NR PR cfg i time_increment r w
           = (store_record r {| c_callsign := team_callsign r;
                                c_signal_strength := PyStr "ERR-&^%";
                                c_wind_direction_deg := PyInt (-999);
                                c_battery_level_percent := PyInt b |},
              (snd (np_randint NR 150 300 (fst w)), snd w)))
  /\ (~ (storm_begin cfg <= t <= storm_end cfg)%Z ->
      inject NR PR cfg i time_increment r w
      = (store_record r (fst (general_messiness NR PR (cells_of r) w)),
         snd (general_messiness NR PR (cells_of r) w))
      /\ messy (cells_of r) (fst (general_messiness NR PR (cells_of r) w))
      /\ fst (snd (inject NR PR cfg i time_increment r w)) = fst w).
Proof.
  intros t. split; [apply in_storm_closed|]. split.
  - intros Hin. apply in_storm_closed in Hin.
    unfold inject, corrupt. fold t. rewrite Hin.
    unfold storm_corruption. destruct w as [n p]. cbn [fst snd].
    pose proof (np_randint_range NR 150 300 n) as Hrange.
    destruct (np_randint NR 150 300 n) as [b n']. cbn [fst snd] in *.
    exists b. split; [apply Hrange; lia | reflexivity].
  - intros Hout.
    assert (Hf : in_storm cfg t = false).
    { destruct (in_storm cfg t) eqn:E; [|reflexivity].
      apply in_storm_closed in E. contradiction. }
    unfold inject, corrupt. fold t. rewrite Hf.
    destruct (general_messiness_messy (cells_of r) w) as [Hmessy Hnp].
    destruct (general_messiness NR PR (cells_of r) w) as [c w'].
    cbn [fst snd] in *. auto.
Qed.

(** C10.  For every report, the fault injection leaves [report_id],
    [timestamp], [latitude], [longitude], [elevation_m] and
    [ambient_temp_c] as they were, in the storm and outside it; and in
    the storm the callsign is left as it was too. *)
Theorem inject_frame (i : nat) (time_increment : Z)
    (r : report) (w : rng NR PR) :
  let r' := fst (inject NR PR cfg i time_increment r w) in
  report_id r' = report_id r
  /\ timestamp r' = timestamp r
  /\ latitude r' = latitude r
  /\ longitude r' = longitude r
  /\ elevation_m r' = elevation_m r
  /\ ambient_temp_c r' = ambient_temp_c r
  /\ (in_storm cfg (current_time cfg i time_increment) = true ->
      team_callsign r' = team_callsign r).
Proof.
  unfold inject, corrupt.
  destruct (in_storm cfg (current_time cfg i time_increment)).
  - unfold storm_corruption. destruct w as [n p].
    destruct (np_randint NR 150 300 n) as [b n']. cbn. repeat split.
  - destruct (general_messiness NR PR (cells_of r) w) as [c w'].
    cbn. repeat split. discriminate.
Qed.

End FaultInjection.

(** ** The batch: rows, timestamps, reproducibility *)

Section Batch.

Variable L : Library.
Variable NR : NumpyRandom.
Variable PR : PyRandom.
Variable cfg : Config.

Lemma clean_report_fields (i : nat) (team_lat team_lon : Q) (cs : string)
    (time_increment : Z) (w w' : rng NR PR) (r : report) :
  clean_report L NR PR cfg i team_lat team_lon cs time_increment w = Ok (r, w') ->
  report_id r = (i + 1)%nat
  /\ timestamp r = isoformat L (current_time cfg i time_increment)
  /\ latitude r = team_lat /\ longitude r = team_lon.
Proof.
  unfold clean_report. destruct w as [n p].
  destruct (elevation_float L cfg team_lat team_lon) as [ground|e];
    cbn [rbind]; [|discriminate].
  destruct (elevation_float L cfg (beacon_lat cfg) (beacon_lon cfg))
    as [beacon_elev|e]; cbn [rbind]; [|discriminate].
  destruct (compute_rss _ _ _ _ _ _ _ _ _ _ _ _ _)
    as [[[[sig blockage_m] snr] n1]|e]; cbn [rbind]; [|discriminate].
  destruct (np_uniform NR 0 360 n1) as [wind n2].
  destruct (np_normal NR 25 5 n2) as [temp n3].
  destruct (np_uniform NR 20 100 n3) as [battery n4].
  intros H. injection H as <- _. cbn. repeat split.
Qed.

Lemma inject_is_store (i : nat) (time_increment : Z) (r : report) (w : rng NR PR) :
  exists c, fst (inject NR PR cfg i time_increment r w) = store_record r c.
Proof.
  unfold inject.
  destruct (corrupt NR PR cfg (current_time cfg i time_increment) (cells_of r) w)
    as [c w'].
  exists c. reflexivity.
Qed.

Lemma loop_body_fields (i : nat) (team_lat team_lon : Q) (cs : string)
    (time_increment : Z) (w w' : rng NR PR) (r : report) :
  loop_body L NR PR cfg i team_lat team_lon cs time_increment w = Ok (r, w') ->
  report_id r = (i + 1)%nat
  /\ timestamp r = isoformat L (current_time cfg i time_increment)
  /\ latitude r = team_lat /\ longitude r = team_lon.
Proof.
  unfold loop_body.
  destruct (clean_report L NR PR cfg i team_lat team_lon cs time_increment w)
    as [[r0 w0]|e] eqn:E; cbn [rbind fst snd]; [|discriminate].
  intros H. injection H as H.
  destruct (inject_is_store i time_increment r0 w0) as [c Hc].
  rewrite H in Hc. cbn [fst] in Hc. subst r.
  apply clean_report_fields in E. exact E.
Qed.

(** The rows that the loop appends, one per team, in order. *)
Lemma report_loop_rows (time_increment : Z) (teams : list ((Q * Q) * string)) :
  forall i records w records' w',
    report_loop L NR PR cfg i teams time_increment records w = Ok (records', w') ->
    exists rows,
      records' = records ++ rows
      /\ List.length rows = List.length teams
      /\ forall j r, nth_error rows j = Some r ->
           report_id r = (i + j + 1)%nat
           /\ timestamp r = isoformat L (current_time cfg (i + j) time_increment)
           /\ nth_error teams j = Some ((latitude r, longitude r), nth j (map snd teams) EmptyString).
Proof.
  induction teams as [|[[team_lat team_lon] cs] teams IH];
    intros i records w records' w' H; cbn [report_loop] in H.
  - injection H as <- _. exists []. rewrite app_nil_r.
    split; [reflexivity|]. split; [reflexivity|].
    intros [|j] r Hj; discriminate Hj.
  - destruct (loop_body L NR PR cfg i team_lat team_lon cs time_increment w)
      as [[r0 w0]|e] eqn:E; cbn [rbind fst snd] in H; [|discriminate].
    apply loop_body_fields in E. destruct E as (Hid & Hts & Hlat & Hlon).
    apply IH in H. destruct H as (rows & -> & Hlen & Hrows).
    exists (r0 :: rows). rewrite <- app_assoc. split; [reflexivity|].
    split; [cbn; lia|].
    intros [|j] r Hj; cbn in Hj.
    + injection Hj as <-. rewrite Nat.add_0_r. cbn. subst. auto.
    + destruct (Hrows j r Hj) as (Hid' & Hts' & Hteam).
      replace (i + S j)%nat with (S i + j)%nat by lia. cbn. auto.
Qed.

(** The script gets as far as the loop over the teams exactly when the
    sampler has placed every team; its rows are then those of the loop,
    with the increment drawn once, before the loop. *)
Lemma main_rows (w0 : rng NR PR) (records : list report) :
  main L NR PR cfg w0 = Ok records ->
  exists team_coords team_callsigns attempts n1 w',
    sampler L NR cfg (np_seed NR (seed cfg))
    = (team_coords, team_callsigns, attempts, n1)
    /\ report_loop L NR PR cfg 0 (combine team_coords team_callsigns)
         (timedelta_minutes (fst (py_randint PR 1 10 (py_seed PR (seed cfg)))))
         [] (n1, snd (py_randint PR 1 10 (py_seed PR (seed cfg))))
       = Ok (records, w').
Proof.
  unfold main, np_random_seed, random_seed. cbn [fst snd].
  destruct (sampler L NR cfg (np_seed NR (seed cfg)))
    as [[[team_coords team_callsigns] attempts] n1].
  destruct (List.length team_coords <? num_points cfg)%nat; [discriminate|].
  destruct (py_randint PR 1 10 (py_seed PR (seed cfg))) as [minutes p1].
  cbn [fst snd].
  destruct (report_loop _ _ _ _ _ _ _ _ _) as [[records' w']|e] eqn:E;
    cbn [rbind fst]; [|discriminate].
  intros H. injection H as <-.
  exists team_coords, team_callsigns, attempts, n1, w'. split; [reflexivity | exact E].
Qed.

(** C8.  In a batch that the script generates, the report of index [i]
    (from 0) has the timestamp of [start_time] plus [i] times one step;
    the step is drawn once, before the loop (between 1 and 10 minutes),
    so the times of the reports never decrease and are evenly spaced. *)
Theorem timestamps_evenly_spaced (w0 : rng NR PR) (records : list report) :
  main L NR PR cfg w0 = Ok records ->
  exists step : Z,
    step = timedelta_minutes (fst (py_randint PR 1 10 (py_seed PR (seed cfg))))
    /\ (60 <= step <= 600)%Z
    /\ (forall i r, nth_error records i = Some r ->
          timestamp r = isoformat L (start_time cfg + Z.of_nat i * step)%Z)
    /\ (forall i, (current_time cfg i step <= current_time cfg (S i) step)%Z
                  /\ (current_time cfg (S i) step - current_time cfg i step
                      = step)%Z).
Proof.
  intros Hmain.
  destruct (main_rows w0 records Hmain)
    as (team_coords & team_callsigns & attempts & n1 & w' & _ & Hloop).
  eexists. split; [reflexivity|].
  pose proof (py_randint_range PR 1 10 (py_seed PR (seed cfg))) as Hrange.
  unfold timedelta_minutes. split; [lia|]. split.
  - intros i r Hi.
    apply report_loop_rows in Hloop. destruct Hloop as (rows & -> & _ & Hrows).
    cbn [app] in Hi. destruct (Hrows i r Hi) as (_ & Hts & _).
    exact Hts.
  - intros i. unfold current_time. lia.
Qed.

(** C9.  Two runs of the script with the same configuration (and so the
    same seed), whatever the states of the two generators when each run
    starts, end in the same way: with the same rows, equal field for
    field, or on the same exception. *)
Theorem main_reproducible (w0 w0' : rng NR PR) :
  main L NR PR cfg w0 = main L NR PR cfg w0'.
Proof.
  unfold main, np_random_seed, random_seed. cbn [fst snd]. reflexivity.
Qed.

End Batch.

(** ** The script returns *)

Section Totality.

Variable L : Library.
Variable NR : NumpyRandom.
Variable PR : PyRandom.
Variable cfg : Config.
Variable src : dataset.
Hypothesis dem_opens : rasterio_open L (dem_file cfg) = Ok src.

Lemma elevation_float_returns (lat lon : Q) :
  elevation_float L cfg lat lon = Ok (ds_band1 src lon lat).
Proof.
  unfold elevation_float, get_elevation. rewrite dem_opens. reflexivity.
Qed.

Lemma loop_body_returns (i : nat) (team_lat team_lon : Q) (cs : string)
    (time_increment : Z) (w : rng NR PR) :
  exists r w',
    loop_body L NR PR cfg i team_lat team_lon cs time_increment w = Ok (r, w').
Proof.
  unfold loop_body, clean_report. destruct w as [n p].
  rewrite !elevation_float_returns. cbn [rbind].
  match goal with
  | |- context [compute_rss L NR ?a ?b ?c ?d ?e ?f ?g ?h ?k ?nf ?s] =>
      destruct (compute_rss_returns L NR a b c d e f g h k nf s src dem_opens)
        as (los_clear & obstruction_m & _ & ->)
  end.
  cbn [rbind].
  destruct (floor_check _ _ _) as [[sig blockage_m] snr].
  destruct (np_uniform NR 0 360 _) as [wind n2].
  destruct (np_normal NR 25 5 n2) as [temp n3].
  destruct (np_uniform NR 20 100 n3) as [battery n4].
  cbn [rbind fst snd].
  destruct (inject _ _ _ _ _ _ _) as [r w']. exists r, w'. reflexivity.
Qed.

Lemma report_loop_returns (time_increment : Z) (teams : list ((Q * Q) * string)) :
  forall i records w,
  exists records' w',
    report_loop L NR PR cfg i teams time_increment records w = Ok (records', w').
Proof.
  induction teams as [|[[team_lat team_lon] cs] teams IH]; intros i records w;
    cbn [report_loop].
  - exists records, w. reflexivity.
  - destruct (loop_body_returns i team_lat team_lon cs time_increment w)
      as (r & w1 & ->).
    cbn [rbind fst snd]. apply IH.
Qed.

(** When the raster opens and the sampler places every team, the script
    reaches the end and writes its rows. *)
Lemma main_returns (w0 : rng NR PR) :
  (num_points cfg <= placed L NR cfg)%nat ->
  exists records, main L NR PR cfg w0 = Ok records.
Proof.
  unfold placed, main, np_random_seed, random_seed. cbn [fst snd].
  destruct (sampler L NR cfg (np_seed NR (seed cfg)))
    as [[[team_coords team_callsigns] attempts] n1].
  cbn [fst]. intros Hfull.
  destruct (Nat.ltb_spec (List.length team_coords) (num_points cfg)); [lia|].
  destruct (py_randint PR 1 10 (py_seed PR (seed cfg))) as [minutes p1].
  destruct (report_loop_returns (timedelta_minutes minutes)
              (combine team_coords team_callsigns) 0 [] (n1, p1))
    as (records & w' & ->).
  exists records. reflexivity.
Qed.

End Totality.

(** ** The model at work on the small world *)

(** The window of the script is closed at both ends: 8:00:00 and 9:30:00
    are in the storm, the seconds before and after are not. *)
Example batch_1_storm_boundaries :
  in_storm batch_1 (datetime_2025_08_21 8 0 0) = true
  /\ in_storm batch_1 (datetime_2025_08_21 9 30 0) = true
  /\ in_storm batch_1 (datetime_2025_08_21 7 59 59) = false
  /\ in_storm batch_1 (datetime_2025_08_21 9 30 1) = false.
Proof. repeat split. Qed.

Example batch_1_placement_message :
  placement_message batch_1
  = "Could not place 200 teams with the given constraints after 15000 attempts."%string.
Proof. reflexivity. Qed.

Example callsign_zfill :
  callsign 7 = "TEAM007"%string /\ callsign 200 = "TEAM200"%string.
Proof. split; reflexivity. Qed.

(** On the first second of the storm (8:00:00, the report of index 12 with
    a step of ten minutes) the corruption fires; one second before (index
    1 with a step of 7199 seconds) it does not. *)
Lemma storm_window_corruption_witness :
  (exists b : Z,
     (150 <= b < 300)%Z
     /\ fst (inject Toy.numpy_random Toy.python_random Toy.small 12 600
               sample_row (5%Z, 9%Z))
        = store_record sample_row
            {| c_callsign := "TEAM013";
               c_signal_strength := PyStr "ERR-&^%";
               c_wind_direction_deg := PyInt (-999);
               c_battery_level_percent := PyInt b |})
  /\ fst (snd (inject Toy.numpy_random Toy.python_random Toy.small 1 7199
                 sample_row (5%Z, 9%Z))) = 5%Z.
Proof.
  pose proof (storm_window_corruption Toy.numpy_random Toy.python_random
                Toy.small 12 600 sample_row (5%Z, 9%Z)) as [_ [Hin _]].
  pose proof (storm_window_corruption Toy.numpy_random Toy.python_random
                Toy.small 1 7199 sample_row (5%Z, 9%Z)) as [_ [_ Hout]].
  split.
  - assert (Hpre : (storm_begin Toy.small <= current_time Toy.small 12 600
                    <= storm_end Toy.small)%Z)
      by (vm_compute; split; discriminate).
    destruct (Hin Hpre) as (b & Hb & Hrun).
    exists b. split; [exact Hb|]. rewrite Hrun. reflexivity.
  - apply Hout. vm_compute. intros [H _]. apply H. reflexivity.
Defined.

Lemma inject_frame_witness :
  team_callsign (fst (inject Toy.numpy_random Toy.python_random Toy.small 12 600
                        sample_row (5%Z, 9%Z))) = "TEAM013"%string
  /\ report_id (fst (inject Toy.numpy_random Toy.python_random Toy.small 1 7199
                       sample_row (5%Z, 9%Z))) = 13%nat.
Proof.
  pose proof (inject_frame Toy.numpy_random Toy.python_random Toy.small 12 600
                sample_row (5%Z, 9%Z)) as (_ & _ & _ & _ & _ & _ & Hcs).
  pose proof (inject_frame Toy.numpy_random Toy.python_random Toy.small 1 7199
                sample_row (5%Z, 9%Z)) as (Hid & _).
  split.
  - apply Hcs. vm_compute. reflexivity.
  - exact Hid.
Defined.

Lemma timestamps_evenly_spaced_witness :
  exists records,
    main Toy.library Toy.numpy_random Toy.python_random Toy.small (0%Z, 0%Z)
    = Ok records
    /\ forall i r, nth_error records i = Some r ->
         timestamp r = Toy.iso (21600 + Z.of_nat i * 540).
Proof.
  destruct (main_returns Toy.library Toy.numpy_random Toy.python_random
              Toy.small Toy.dem eq_refl (0%Z, 0%Z)) as [records Hmain];
    [vm_compute; lia|].
  exists records. split; [exact Hmain|].
  destruct (timestamps_evenly_spaced Toy.library Toy.numpy_random
              Toy.python_random Toy.small (0%Z, 0%Z) records Hmain)
    as (step & Hstep & _ & Hts & _).
  vm_compute in Hstep. subst step. exact Hts.
Defined.

(* ================================================================== *)
(** * Further properties of the engine *)

(** ** The line-of-sight analyzer: sign, clearance, errors *)

Section LineOfSightMore.

Variable L : Library.

(** X1.  The blockage is never negative, and the line of sight is reported
    clear exactly when the terrain is at or below the line at every point
    sampled on the path. *)
Theorem los_clear_iff_terrain_below
    (tx_lat tx_lon tx_elev rx_lat rx_lon rx_elev : Q)
    (dem_path : string) (num : nat) (src : dataset) :
  rasterio_open L dem_path = Ok src -> (1 <= num)%nat ->
  exists (los_clear : bool) (blockage : Q),
    line_of_sight_blockage L tx_lat tx_lon tx_elev rx_lat rx_lon rx_elev
      dem_path num = Ok (los_clear, blockage)
    /\ 0 <= blockage
    /\ (los_clear = true <->
        forall i, (i < num)%nat ->
          ds_band1 src (nth i (Np.linspace tx_lon rx_lon num) 0)
                       (nth i (Np.linspace tx_lat rx_lat num) 0)
          <= nth i (Np.linspace tx_elev rx_elev num) 0).
Proof.
  intros Hopen Hnum.
  destruct (line_of_sight_blockage_returns L tx_lat tx_lon tx_elev
              rx_lat rx_lon rx_elev dem_path num src Hopen Hnum)
    as (x & xs & E & Hrun).
  pose proof (obstructions_length src (Np.linspace tx_lon rx_lon num)
                (Np.linspace tx_lat rx_lat num) (Np.linspace tx_elev rx_elev num)) as Hlen.
  rewrite !linspace_length in Hlen. specialize (Hlen eq_refl eq_refl).
  assert (Hnth : forall i, (i < num)%nat ->
            nth i (x :: xs) 0
            = Qmax (ds_band1 src (nth i (Np.linspace tx_lon rx_lon num) 0)
                                 (nth i (Np.linspace tx_lat rx_lat num) 0)
                    - nth i (Np.linspace tx_elev rx_elev num) 0) 0).
  { intros i Hi. rewrite <- E.
    apply obstructions_nth; rewrite !linspace_length; lia. }
  destruct (In_nth _ _ 0 (fold_max_in xs x)) as (m & Hm & Hm').
  rewrite <- E, Hlen in Hm.
  exists (Qeq_bool (fold_left Qmax xs x) 0), (fold_left Qmax xs x).
  split; [exact Hrun|]. split.
  - rewrite <- Hm', (Hnth m Hm). apply Q.le_max_r.
  - rewrite Qeq_bool_iff. split.
    + intros Hzero i Hi.
      assert (Hle : nth i (x :: xs) 0 <= fold_left Qmax xs x).
      { apply fold_max_upper. apply nth_In. rewrite <- E, Hlen. exact Hi. }
      rewrite (Hnth i Hi), Hzero in Hle.
      pose proof (Q.le_max_l
                    (ds_band1 src (nth i (Np.linspace tx_lon rx_lon num) 0)
                                  (nth i (Np.linspace tx_lat rx_lat num) 0)
                     - nth i (Np.linspace tx_elev rx_elev num) 0) 0) as Hl.
      lra.
    + intros Hbelow. rewrite <- Hm', (Hnth m Hm).
      apply Q.max_r. specialize (Hbelow m Hm). lra.
Qed.

(** X2.  Errors of the analyzer: an exception of [rasterio.open] leaves the
    analyzer as it is, whatever the number of samples; with no sample at
    all, [np.max] of the empty array raises a [ValueError]. *)
Theorem los_errors
    (tx_lat tx_lon tx_elev rx_lat rx_lon rx_elev : Q) (dem_path : string) :
  (forall num e, rasterio_open L dem_path = Raise e ->
     line_of_sight_blockage L tx_lat tx_lon tx_elev rx_lat rx_lon rx_elev
       dem_path num = Raise e)
  /\ (forall src, rasterio_open L dem_path = Ok src ->
     exists msg,
       line_of_sight_blockage L tx_lat tx_lon tx_elev rx_lat rx_lon rx_elev
         dem_path 0 = Raise (ValueError msg)).
Proof.
  unfold line_of_sight_blockage. split.
  - intros num e H. rewrite H. reflexivity.
  - intros src H. rewrite H. eexists. reflexivity.
Qed.

End LineOfSightMore.

Lemma los_clear_iff_terrain_below_witness :
  exists blockage,
    line_of_sight_blockage Toy.library 37.2 (-119) 1200 37.3 (-118.9) 1400
      "data/sierra_dem.tif" 4 = Ok (true, blockage)
    /\ 0 <= blockage.
Proof.
  destruct (los_clear_iff_terrain_below Toy.library
              37.2 (-119) 1200 37.3 (-118.9) 1400 "data/sierra_dem.tif" 4 Toy.dem)
    as (los_clear & blockage & Hrun & Hpos & _).
  - reflexivity.
  - lia.
  - exists blockage. split; [|exact Hpos].
    rewrite Hrun. vm_compute in Hrun. injection Hrun as <- _. reflexivity.
Defined.

Lemma los_errors_witness :
  line_of_sight_blockage Toy.library 37.2 (-119) 1200 37.3 (-118.9) 1400
    "missing.tif" 100 = Raise (RasterioIOError "missing.tif")
  /\ exists msg,
       line_of_sight_blockage Toy.library 37.2 (-119) 1200 37.3 (-118.9) 1400
         "data/sierra_dem.tif" 0 = Raise (ValueError msg).
Proof.
  destruct (los_errors Toy.library 37.2 (-119) 1200 37.3 (-118.9) 1400
              "missing.tif") as [Hopen _].
  destruct (los_errors Toy.library 37.2 (-119) 1200 37.3 (-118.9) 1400
              "data/sierra_dem.tif") as [_ Hempty].
  split.
  - apply Hopen. reflexivity.
  - apply (Hempty Toy.dem). reflexivity.
Defined.

(** ** The signal propagation model: noise floor, obstruction, errors *)

Section PropagationMore.

Variable L : Library.
Variable NR : NumpyRandom.

Lemma line_of_sight_blockage_opened
    (tx_lat tx_lon tx_elev rx_lat rx_lon rx_elev : Q)
    (dem_path : string) (num : nat) (r : bool * Q) :
  line_of_sight_blockage L tx_lat tx_lon tx_elev rx_lat rx_lon rx_elev
    dem_path num = Ok r ->
  exists src, rasterio_open L dem_path = Ok src.
Proof.
  unfold line_of_sight_blockage.
  destruct (rasterio_open L dem_path) as [src|e]; cbn [rbind].
  - intros _. exists src. reflexivity.
  - discriminate.
Qed.

Lemma compute_rss_opened
    (tx_lat tx_lon tx_elev rx_lat rx_lon rx_elev : Q) (dem_path : string)
    (base_strength k noise_floor : Q) (s : np_state NR)
    (r : value * Q * Q * np_state NR) :
  compute_rss L NR tx_lat tx_lon tx_elev rx_lat rx_lon rx_elev dem_path
    base_strength k noise_floor s = Ok r ->
  exists src, rasterio_open L dem_path = Ok src.
Proof.
  unfold compute_rss.
  destruct (line_of_sight_blockage L tx_lat tx_lon tx_elev rx_lat rx_lon rx_elev
              dem_path 100) as [lb|e] eqn:E; cbn [rbind]; [|discriminate].
  intros _. eapply line_of_sight_blockage_opened, E.
Qed.

Lemma line_of_sight_blockage_nonneg
    (tx_lat tx_lon tx_elev rx_lat rx_lon rx_elev : Q)
    (dem_path : string) (num : nat) (los_clear : bool) (blockage : Q) :
  line_of_sight_blockage L tx_lat tx_lon tx_elev rx_lat rx_lon rx_elev
    dem_path num = Ok (los_clear, blockage) ->
  0 <= blockage.
Proof.
  intros Hrun.
  destruct (line_of_sight_blockage_opened _ _ _ _ _ _ _ _ _ Hrun) as [src Hopen].
  destruct num as [|num].
  - unfold line_of_sight_blockage in Hrun. rewrite Hopen in Hrun.
    cbn in Hrun. discriminate Hrun.
  - destruct (line_of_sight_blockage_returns L tx_lat tx_lon tx_elev
                rx_lat rx_lon rx_elev dem_path (S num) src Hopen)
      as (x & xs & E & Hrun'); [lia|].
    rewrite Hrun in Hrun'. injection Hrun' as _ ->.
    pose proof (fold_max_in xs x) as Hin. rewrite <- E in Hin.
    unfold Np.maximum in Hin. apply in_map_iff in Hin.
    destruct Hin as (y & <- & _). apply Q.le_max_r.
Qed.

(** The floor check leaves [np.nan] or a float that is at least the noise
    floor. *)
Lemma floor_check_cases (signal_strength blockage_m noise_floor : Q) :
  let r := floor_check signal_strength blockage_m noise_floor in
  snd (fst r) = blockage_m
  /\ snd r = signal_strength - noise_floor
  /\ ((fst (fst r) = PyNaN /\ snd r < 0)
      \/ (fst (fst r) = PyFloat signal_strength
          /\ noise_floor <= signal_strength /\ 0 <= snd r)).
Proof.
  unfold floor_check.
  destruct (ltb (signal_strength - noise_floor) 0) eqn:E; cbn [fst snd].
  - apply ltb_lt in E. auto.
  - apply ltb_ge in E. split; [reflexivity|]. split; [reflexivity|].
    right. split; [reflexivity|]. split; [lra | exact E].
Qed.

Lemma compute_rss_floor_checked
    (tx_lat tx_lon tx_elev rx_lat rx_lon rx_elev : Q) (dem_path : string)
    (base_strength k noise_floor : Q) (s s' : np_state NR)
    (signal_strength : value) (blockage_m snr : Q) :
  compute_rss L NR tx_lat tx_lon tx_elev rx_lat rx_lon rx_elev dem_path
    base_strength k noise_floor s = Ok (signal_strength, blockage_m, snr, s') ->
  0 <= blockage_m
  /\ exists raw, (signal_strength, blockage_m, snr)
                 = floor_check raw blockage_m noise_floor.
Proof.
  intros Hrun.
  destruct (compute_rss_opened _ _ _ _ _ _ _ _ _ _ _ _ Hrun) as [src Hopen].
  destruct (compute_rss_returns L NR tx_lat tx_lon tx_elev rx_lat rx_lon rx_elev
              dem_path base_strength k noise_floor s src Hopen)
    as (c & b & Hlos & Hrun').
  pose proof (line_of_sight_blockage_nonneg _ _ _ _ _ _ _ _ _ _ Hlos) as Hpos.
  rewrite Hrun in Hrun'. injection Hrun' as Hres _.
  match type of Hres with
  | _ = floor_check ?raw _ _ => remember raw as raw0 eqn:Hraw
  end.
  destruct (floor_check_cases raw0 b noise_floor) as (Hb & _).
  rewrite <- Hres in Hb. cbn [fst snd] in Hb. subst b.
  split; [exact Hpos | exists raw0; exact Hres].
Qed.

(** X3.  Whenever [compute_rss] returns, the signal strength it returns is
    either [np.nan], with a negative snr, or a float that is not below
    the noise floor, with the snr equal to the float minus the noise floor;
    and the blockage it returns is not negative. *)
Theorem compute_rss_never_below_floor
    (tx_lat tx_lon tx_elev rx_lat rx_lon rx_elev : Q) (dem_path : string)
    (base_strength k noise_floor : Q) (s s' : np_state NR)
    (signal_strength : value) (blockage_m snr : Q) :
  compute_rss L NR tx_lat tx_lon tx_elev rx_lat rx_lon rx_elev dem_path
    base_strength k noise_floor s = Ok (signal_strength, blockage_m, snr, s') ->
  0 <= blockage_m
  /\ ((signal_strength = PyNaN /\ snr < 0)
      \/ exists x, signal_strength = PyFloat x
                   /\ noise_floor <= x /\ snr = x - noise_floor /\ 0 <= snr).
Proof.
  intros Hrun.
  destruct (compute_rss_floor_checked _ _ _ _ _ _ _ _ _ _ _ _ _ _ _ Hrun)
    as (Hpos & raw & Hres).
  split; [exact Hpos|].
  destruct (floor_check_cases raw blockage_m noise_floor) as (_ & Hsnr & Hcases).
  rewrite <- Hres in Hsnr, Hcases. cbn [fst snd] in Hsnr, Hcases.
  destruct Hcases as [[Hnan Hneg]|(Hfloat & Hfloor & Hsnr0)].
  - left. split; assumption.
  - right. exists raw. split; [exact Hfloat|]. split; [exact Hfloor|].
    split; [exact Hsnr | exact Hsnr0].
Qed.

(** X4.  With an attenuation coefficient [k] that is not negative, terrain can
    only lower the snr: it is at most the snr of the free path,
    [base_strength - 20*log10(d) + noise - noise_floor], and equal to it
    when the line of sight is clear. *)
Theorem obstruction_only_lowers_snr
    (tx_lat tx_lon tx_elev rx_lat rx_lon rx_elev : Q) (dem_path : string)
    (base_strength k noise_floor : Q) (s : np_state NR) (src : dataset) :
  rasterio_open L dem_path = Ok src -> 0 <= k ->
  let free_snr :=
    base_strength
    - 20 * log10 L (geodesic_meters L (tx_lat, tx_lon) (rx_lat, rx_lon))
    + fst (np_normal NR 0 2 s) - noise_floor in
  exists (los_clear : bool) (signal_strength : value) (blockage_m snr : Q)
         (s' : np_state NR),
    line_of_sight_blockage L tx_lat tx_lon tx_elev rx_lat rx_lon rx_elev
      dem_path 100 = Ok (los_clear, blockage_m)
    /\ compute_rss L NR tx_lat tx_lon tx_elev rx_lat rx_lon rx_elev dem_path
         base_strength k noise_floor s
       = Ok (signal_strength, blockage_m, snr, s')
    /\ snr <= free_snr
    /\ (los_clear = true -> snr == free_snr).
Proof.
  intros Hopen Hk free_snr.
  destruct (compute_rss_returns L NR tx_lat tx_lon tx_elev rx_lat rx_lon rx_elev
              dem_path base_strength k noise_floor s src Hopen)
    as (c & b & Hlos & Hrun).
  pose proof (line_of_sight_blockage_nonneg _ _ _ _ _ _ _ _ _ _ Hlos) as Hpos.
  match type of Hrun with
  | _ = Ok (floor_check ?raw _ _, _) =>
      destruct (floor_check_cases raw b noise_floor) as (Hb & Hsnr & _);
      destruct (floor_check raw b noise_floor) as [[sig b'] snr] eqn:E
  end.
  cbn [fst snd] in Hb, Hsnr. subst b'.
  exists c, sig, b, snr. eexists.
  split; [exact Hlos|]. split; [exact Hrun|].
  rewrite Hsnr. unfold free_snr, LOS_Penalty.
  destruct c.
  - split; [|intros _]; ring_simplify; lra.
  - split; [|discriminate].
    assert (0 <= k * b) by (apply Qmult_le_0_compat; assumption).
    lra.
Qed.

End PropagationMore.

Lemma compute_rss_never_below_floor_witness :
  exists x blockage_m snr,
    compute_rss Toy.library Toy.quiet_numpy_random
      37.42 (-119.05) 1320 37.2 (-119) 1220 "data/sierra_dem.tif"
      (-30) 0.15 (-120) 7%Z
    = Ok (PyFloat x, blockage_m, snr, Toy.next 7)
    /\ -120 <= x.
Proof.
  assert (Hrun : exists x blockage_m snr,
    compute_rss Toy.library Toy.quiet_numpy_random
      37.42 (-119.05) 1320 37.2 (-119) 1220 "data/sierra_dem.tif"
      (-30) 0.15 (-120) 7%Z
    = Ok (PyFloat x, blockage_m, snr, Toy.next 7))
    by (do 3 eexists; vm_compute; reflexivity).
  destruct Hrun as (x & blockage_m & snr & Hrun).
  exists x, blockage_m, snr. split; [exact Hrun|].
  destruct (compute_rss_never_below_floor _ _ _ _ _ _ _ _ _ _ _ _ _ _ _ _ _ Hrun)
    as [_ [[Hnan _]|(y & Hy & Hfloor & _)]].
  - discriminate Hnan.
  - injection Hy as <-. exact Hfloor.
Defined.

Lemma obstruction_only_lowers_snr_witness :
  exists signal_strength blockage_m snr s',
    compute_rss Toy.library Toy.numpy_random
      37.42 (-119.05) 1320 37.2 (-119.3) 1220 "data/sierra_dem.tif"
      (-30) 0.15 (-120) 7%Z
    = Ok (signal_strength, blockage_m, snr, s')
    /\ snr <= -30 - 20 * Toy.digits10 52170
              + fst (np_normal Toy.numpy_random 0 2 7%Z) - -120.
Proof.
  destruct (obstruction_only_lowers_snr Toy.library Toy.numpy_random
              37.42 (-119.05) 1320 37.2 (-119.3) 1220 "data/sierra_dem.tif"
              (-30) 0.15 (-120) 7%Z Toy.dem)
    as (c & sig & b & snr & s' & _ & Hrun & Hle & _).
  - reflexivity.
  - vm_compute. discriminate.
  - exists sig, b, snr, s'. split; [exact Hrun|].
    eapply Qle_trans; [exact Hle|]. vm_compute. discriminate.
Defined.

(** ** The sampler: callsigns and bounds *)

Lemma uint_of_zeros (k : nat) (s : string) (d : Decimal.uint) :
  NilEmpty.uint_of_string s = Some d ->
  exists d', NilEmpty.uint_of_string (zeros k ++ s) = Some d'
             /\ Nat.of_uint d' = Nat.of_uint d.
Proof.
  intros H. induction k as [|k (d' & Hd' & Hnum)]; cbn [zeros String.append].
  - exists d. split; [exact H | reflexivity].
  - exists (Decimal.D0 d'). split.
    + cbn [NilEmpty.uint_of_string]. rewrite Hd'. reflexivity.
    + exact Hnum.
Qed.

Lemma callsign_number_spec (n : nat) :
  callsign_number (callsign n) = Some n.
Proof.
  unfold callsign, zfill, str. cbn [String.append callsign_number].
  destruct (uint_of_zeros (3 - String.length (NilEmpty.string_of_uint (Nat.to_uint n)))
              _ _ (NilEmpty.usu (Nat.to_uint n))) as (d' & -> & Hnum).
  cbn [option_map]. rewrite Hnum, Unsigned.of_to. reflexivity.
Qed.

Lemma callsign_injective : Injective callsign.
Proof.
  intros n m H.
  pose proof (callsign_number_spec n) as Hn.
  rewrite H, callsign_number_spec in Hn. congruence.
Qed.

(** X5.  The number of a team can be read back from its callsign, whatever
    the number of its digits ([zfill] pads and never cuts), so that two
    teams with the same callsign have the same number. *)
Theorem callsign_round_trip (n m : nat) :
  callsign_number (callsign n) = Some n
  /\ (callsign n = callsign m -> n = m).
Proof.
  split; [apply callsign_number_spec | apply callsign_injective].
Qed.

Lemma callsign_round_trip_witness :
  callsign_number "TEAM1234" = Some 1234%nat /\ 7%nat = 7%nat.
Proof.
  split.
  - exact (proj1 (callsign_round_trip 1234 0)).
  - apply (proj2 (callsign_round_trip 7 7)). reflexivity.
Defined.

Section SamplerMore.

Variable L : Library.
Variable NR : NumpyRandom.
Variable cfg : Config.

Lemma sampling_loop_callsigns (fuel : nat) :
  forall team_coords team_callsigns attempts s,
    team_callsigns = map callsign (seq 1 (List.length team_coords)) ->
    (List.length team_coords <= attempts)%nat ->
    (List.length team_coords <= num_points cfg)%nat ->
    let r := sampling_loop L NR cfg fuel team_coords team_callsigns attempts s in
    snd (fst (fst r)) = map callsign (seq 1 (List.length (fst (fst (fst r)))))
    /\ (List.length (fst (fst (fst r))) <= snd (fst r))%nat
    /\ (List.length (fst (fst (fst r))) <= num_points cfg)%nat.
Proof.
  induction fuel as [|fuel IH]; intros team_coords team_callsigns attempts s Hcs Hat Hnum;
    cbn [sampling_loop];
    destruct (Nat.ltb_spec (List.length team_coords) (num_points cfg));
    destruct (Nat.ltb_spec attempts (max_attempts cfg));
    cbn [andb fst snd]; auto.
  destruct (np_uniform NR (LAT_MIN cfg) (LAT_MAX cfg) s) as [lat s1].
  destruct (np_uniform NR (LON_MIN cfg) (LON_MAX cfg) s1) as [lon s2].
  destruct (ltb _ _); [apply IH; auto; lia|].
  destruct (too_close _ _ _ _ _); [apply IH; auto; lia|].
  apply IH.
  - rewrite length_app. cbn [List.length].
    rewrite Nat.add_1_r, seq_S, map_app, <- Hcs. reflexivity.
  - rewrite length_app. cbn [List.length]. lia.
  - rewrite length_app. cbn [List.length]. lia.
Qed.

(** X6.  The callsigns of a run of the sampler go with the coordinates, one
    each: they are TEAM001, TEAM002, ... in the order of placement, and no
    two of them are the same. *)
Theorem sampler_callsigns (s : np_state NR) :
  let team_coords := fst (fst (fst (sampler L NR cfg s))) in
  let team_callsigns := snd (fst (fst (sampler L NR cfg s))) in
  team_callsigns = map callsign (seq 1 (List.length team_coords))
  /\ List.length team_callsigns = List.length team_coords
  /\ NoDup team_callsigns.
Proof.
  intros team_coords team_callsigns.
  destruct (sampling_loop_callsigns (max_attempts cfg) [] [] 0 s eq_refl)
    as (Hcs & _); [cbn; lia | cbn; lia |].
  fold (sampler L NR cfg s) in Hcs. fold team_coords team_callsigns in Hcs.
  split; [exact Hcs|]. rewrite Hcs. split.
  - rewrite length_map, length_seq. reflexivity.
  - apply Injective_map_NoDup; [exact callsign_injective | apply seq_NoDup].
Qed.

(** X7.  A run of the sampler never places more than [num_points] teams nor
    more teams than attempts, never makes more than [max_attempts]
    attempts, and stops only with all the teams placed or the attempts
    used up. *)
Theorem sampler_bounds (s : np_state NR) :
  let team_coords := fst (fst (fst (sampler L NR cfg s))) in
  let attempts := snd (fst (sampler L NR cfg s)) in
  (List.length team_coords <= num_points cfg)%nat
  /\ (List.length team_coords <= attempts <= max_attempts cfg)%nat
  /\ (List.length team_coords = num_points cfg \/ attempts = max_attempts cfg).
Proof.
  intros team_coords attempts.
  destruct (sampling_loop_callsigns (max_attempts cfg) [] [] 0 s eq_refl)
    as (_ & Hat & Hnum); [cbn; lia | cbn; lia |].
  destruct (sampling_loop_exit L NR cfg (max_attempts cfg) [] [] 0 s)
    as (Hmax & Hexit); [lia | lia |].
  fold (sampler L NR cfg s) in Hat, Hnum, Hmax, Hexit.
  fold team_coords in Hat, Hnum, Hexit. fold attempts in Hat, Hmax, Hexit.
  split; [exact Hnum|]. split; [lia|].
  destruct Hexit as [Hfull|Hdone]; [left; lia | right; exact Hdone].
Qed.

End SamplerMore.

(** ** The batch: what its rows hold *)

Section BatchMore.

Variable L : Library.
Variable NR : NumpyRandom.
Variable PR : PyRandom.
Variable cfg : Config.

Lemma elevation_float_opened (lat lon : Q) (v : Q) :
  elevation_float L cfg lat lon = Ok v ->
  exists src, rasterio_open L (dem_file cfg) = Ok src /\ v = ds_band1 src lon lat.
Proof.
  unfold elevation_float, get_elevation.
  destruct (rasterio_open L (dem_file cfg)) as [src|e]; cbn; [|discriminate].
  intros H. injection H as <-. exists src. split; reflexivity.
Qed.

(** What a clean row holds. *)
Lemma clean_report_inv (i : nat) (team_lat team_lon : Q) (cs : string)
    (time_increment : Z) (w w' : rng NR PR) (r : report) :
  clean_report L NR PR cfg i team_lat team_lon cs time_increment w = Ok (r, w') ->
  exists src,
    rasterio_open L (dem_file cfg) = Ok src
    /\ team_callsign r = cs
    /\ elevation_m r = Py.min (ds_band1 src team_lon team_lat + 120) 4000
    /\ (exists blockage_m snr n1,
          compute_rss L NR (beacon_lat cfg) (beacon_lon cfg)
            (ds_band1 src (beacon_lon cfg) (beacon_lat cfg))
            team_lat team_lon (elevation_m r) (dem_file cfg)
            (-30) 0.15 (-120) (fst w)
          = Ok (signal_strength r, blockage_m, snr, n1))
    /\ (exists x, wind_direction_deg r = PyFloat x)
    /\ (exists x, battery_level_percent r = PyFloat x).
Proof.
  unfold clean_report. destruct w as [n p].
  destruct (elevation_float L cfg team_lat team_lon) as [ground|e] eqn:Eg;
    cbn [rbind]; [|discriminate].
  destruct (elevation_float L cfg (beacon_lat cfg) (beacon_lon cfg))
    as [beacon_elev|e] eqn:Eb; cbn [rbind]; [|discriminate].
  destruct (elevation_float_opened _ _ _ Eg) as (src & Hopen & ->).
  destruct (elevation_float_opened _ _ _ Eb) as (src' & Hopen' & ->).
  rewrite Hopen in Hopen'. injection Hopen' as <-.
  destruct (compute_rss _ _ _ _ _ _ _ _ _ _ _ _ _)
    as [[[[sig blockage_m] snr] n1]|e] eqn:Erss; cbn [rbind]; [|discriminate].
  destruct (np_uniform NR 0 360 n1) as [wind n2].
  destruct (np_normal NR 25 5 n2) as [temp n3].
  destruct (np_uniform NR 20 100 n3) as [battery n4].
  intros H. injection H as <- _. cbn.
  exists src. split; [exact Hopen|]. split; [reflexivity|]. split; [reflexivity|].
  split; [exists blockage_m, snr, n1; exact Erss|].
  split; eexists; reflexivity.
Qed.

(** The rows that the loop appends, each one a clean row gone through the
    fault injection. *)
Lemma report_loop_rows_injected (time_increment : Z)
    (teams : list ((Q * Q) * string)) :
  forall i records w records' w',
    report_loop L NR PR cfg i teams time_increment records w = Ok (records', w') ->
    exists rows,
      records' = records ++ rows
      /\ List.length rows = List.length teams
      /\ forall j r, nth_error rows j = Some r ->
           exists team_lat team_lon cs r0 w1 w2,
             nth_error teams j = Some ((team_lat, team_lon), cs)
             /\ clean_report L NR PR cfg (i + j) team_lat team_lon cs
                  time_increment w1 = Ok (r0, w2)
             /\ r = fst (inject NR PR cfg (i + j) time_increment r0 w2).
Proof.
  induction teams as [|[[team_lat team_lon] cs] teams IH];
    intros i records w records' w' H; cbn [report_loop] in H.
  - injection H as <- _. exists []. rewrite app_nil_r.
    split; [reflexivity|]. split; [reflexivity|].
    intros [|j] r Hj; discriminate Hj.
  - unfold loop_body in H.
    destruct (clean_report L NR PR cfg i team_lat team_lon cs time_increment w)
      as [[r0 w0]|e] eqn:E; cbn [rbind fst snd] in H; [|discriminate].
    apply IH in H. destruct H as (rows & -> & Hlen & Hrows).
    exists (fst (inject NR PR cfg i time_increment r0 w0) :: rows).
    rewrite <- app_assoc. split; [reflexivity|].
    split; [cbn; lia|].
    intros [|j] r Hj; cbn in Hj.
    + injection Hj as <-. rewrite Nat.add_0_r.
      exists team_lat, team_lon, cs, r0, w, w0. auto.
    + destruct (Hrows j r Hj) as (lat & lon & cs' & r1 & w1 & w2 & Ht & Hc & Hr).
      replace (i + S j)%nat with (S i + j)%nat by lia.
      exists lat, lon, cs', r1, w1, w2. auto.
Qed.

(** The teams of a batch that is written: every team asked for has been
    placed, with its callsign. *)
Lemma main_teams (w0 : rng NR PR) (records : list report) :
  main L NR PR cfg w0 = Ok records ->
  let team_coords := fst (fst (fst (sampler L NR cfg (np_seed NR (seed cfg))))) in
  let team_callsigns := snd (fst (fst (sampler L NR cfg (np_seed NR (seed cfg))))) in
  List.length team_coords = num_points cfg
  /\ team_callsigns = map callsign (seq 1 (num_points cfg))
  /\ exists n1 w',
       report_loop L NR PR cfg 0 (combine team_coords team_callsigns)
         (timedelta_minutes (fst (py_randint PR 1 10 (py_seed PR (seed cfg)))))
         [] (n1, snd (py_randint PR 1 10 (py_seed PR (seed cfg))))
       = Ok (records, w').
Proof.
  intros Hmain team_coords team_callsigns.
  destruct (sampling_loop_callsigns L NR cfg (max_attempts cfg) [] [] 0
              (np_seed NR (seed cfg)) eq_refl) as (Hcs & _ & Hnum);
    [cbn; lia | cbn; lia |].
  fold (sampler L NR cfg (np_seed NR (seed cfg))) in Hcs, Hnum.
  fold team_coords in Hcs, Hnum. fold team_callsigns in Hcs.
  destruct (main_rows L NR PR cfg w0 records Hmain)
    as (tc & tcs & attempts & n1 & w' & Hs & Hloop).
  assert (Hfull : (num_points cfg <= List.length team_coords)%nat).
  { unfold main, np_random_seed, random_seed in Hmain. cbn [fst snd] in Hmain.
    subst team_coords. rewrite Hs in Hmain |- *. cbn [fst].
    destruct (Nat.ltb_spec (List.length tc) (num_points cfg)); [discriminate|lia]. }
  assert (Hlen : List.length team_coords = num_points cfg) by lia.
  split; [exact Hlen|]. split; [rewrite Hcs, Hlen; reflexivity|].
  exists n1, w'. subst team_coords team_callsigns. rewrite Hs. exact Hloop.
Qed.

Lemma nth_error_combine {A B : Type} (l : list A) (l' : list B) :
  forall i a b, nth_error (combine l l') i = Some (a, b) ->
                nth_error l i = Some a /\ nth_error l' i = Some b.
Proof.
  revert l'. induction l as [|x l IH]; intros [|y l'] [|i] a b H;
    cbn in H |- *; try discriminate.
  - injection H as <- <-. split; reflexivity.
  - apply IH, H.
Qed.

(** X8.  A batch that is written has one row for each of the [num_points]
    teams, in the order of placement: the row of index [i] has the report
    id [i + 1] and the coordinates of the team placed in the [i]-th place. *)
Theorem batch_rows (w0 : rng NR PR) (records : list report) :
  main L NR PR cfg w0 = Ok records ->
  let team_coords := fst (fst (fst (sampler L NR cfg (np_seed NR (seed cfg))))) in
  List.length records = num_points cfg
  /\ map report_id records = seq 1 (num_points cfg)
  /\ map (fun r => (latitude r, longitude r)) records = team_coords.
Proof.
  intros Hmain team_coords.
  destruct (main_teams w0 records Hmain) as (Hlen & Hcs & n1 & w' & Hloop).
  fold team_coords in Hlen, Hloop.
  apply report_loop_rows in Hloop. destruct Hloop as (rows & -> & Hrows & Hrow).
  cbn [app]. rewrite length_combine, Hcs, length_map, length_seq, Hlen in Hrows.
  rewrite Nat.min_id in Hrows.
  split; [exact Hrows|]. split.
  - apply nth_error_ext. intros i.
    rewrite nth_error_map.
    destruct (nth_error rows i) as [r|] eqn:E; cbn [option_map].
    + destruct (Hrow i r E) as (Hid & _). rewrite Hid.
      assert (Hi : (i < num_points cfg)%nat)
        by (rewrite <- Hrows; apply nth_error_Some; congruence).
      symmetry. rewrite nth_error_nth' with (d := O) by (rewrite length_seq; exact Hi).
      rewrite seq_nth by exact Hi. f_equal. lia.
    + symmetry. apply nth_error_None. rewrite length_seq.
      apply nth_error_None in E. lia.
  - apply nth_error_ext. intros i.
    rewrite nth_error_map.
    destruct (nth_error rows i) as [r|] eqn:E; cbn [option_map].
    + destruct (Hrow i r E) as (_ & _ & Hteam).
      apply nth_error_combine in Hteam. destruct Hteam as [Hc _].
      symmetry. exact Hc.
    + symmetry. apply nth_error_None. apply nth_error_None in E.
      unfold team_coords in Hlen |- *. lia.
Qed.

End BatchMore.

Section BatchContents.

Variable L : Library.
Variable NR : NumpyRandom.
Variable PR : PyRandom.
Variable cfg : Config.

(** The step between two reports, drawn once by the script. *)
Let step : Z :=
  timedelta_minutes (fst (py_randint PR 1 10 (py_seed PR (seed cfg)))).

Lemma corrupt_storm (t : Z) (c : cells) (w : rng NR PR) :
  in_storm cfg t = true ->
  exists b : Z,
    (150 <= b < 300)%Z
    /\ fst (corrupt NR PR cfg t c w)
       = {| c_callsign := c_callsign c;
            c_signal_strength := PyStr "ERR-&^%";
            c_wind_direction_deg := PyInt (-999);
            c_battery_level_percent := PyInt b |}.
Proof.
  intros Hin. unfold corrupt. rewrite Hin.
  unfold storm_corruption. destruct w as [n p].
  pose proof (np_randint_range NR 150 300 n) as Hrange.
  destruct (np_randint NR 150 300 n) as [b n']. cbn [fst] in *.
  exists b. split; [apply Hrange; lia | reflexivity].
Qed.

Lemma corrupt_calm (t : Z) (c : cells) (w : rng NR PR) :
  in_storm cfg t = false -> messy c (fst (corrupt NR PR cfg t c w)).
Proof.
  intros Hout. unfold corrupt. rewrite Hout.
  apply general_messiness_messy.
Qed.

Lemma inject_cells (i : nat) (time_increment : Z) (r : report) (w : rng NR PR) :
  fst (inject NR PR cfg i time_increment r w)
  = store_record r
      (fst (corrupt NR PR cfg (current_time cfg i time_increment) (cells_of r) w)).
Proof.
  unfold inject.
  destruct (corrupt NR PR cfg (current_time cfg i time_increment) (cells_of r) w).
  reflexivity.
Qed.

(** The row of index [i] of a batch that is written: the clean row of the
    team placed in the [i]-th place, with the callsign number [i + 1], gone
    through the fault injection. *)
Lemma main_row (w0 : rng NR PR) (records : list report) :
  main L NR PR cfg w0 = Ok records ->
  forall i r, nth_error records i = Some r ->
    exists r0 w1 w2,
      nth_error (fst (fst (fst (sampler L NR cfg (np_seed NR (seed cfg))))))  i
      = Some (latitude r0, longitude r0)
      /\ clean_report L NR PR cfg i (latitude r0) (longitude r0) (callsign (S i))
           step w1 = Ok (r0, w2)
      /\ r = store_record r0
               (fst (corrupt NR PR cfg (current_time cfg i step) (cells_of r0) w2)).
Proof.
  intros Hmain i r Hi.
  destruct (main_teams L NR PR cfg w0 records Hmain) as (Hlen & Hcs & n1 & w' & Hloop).
  apply report_loop_rows_injected in Hloop.
  destruct Hloop as (rows & -> & Hrows & Hrow). cbn [app] in Hi.
  destruct (Hrow i r Hi) as (lat & lon & cs & r0 & w1 & w2 & Hteam & Hclean & Hr).
  cbn [Nat.add] in Hclean, Hr.
  apply nth_error_combine in Hteam. destruct Hteam as [Hc Hcall].
  rewrite Hcs, nth_error_map in Hcall.
  assert (Hilt : (i < num_points cfg)%nat).
  { rewrite <- Hlen. apply nth_error_Some. congruence. }
  rewrite nth_error_nth' with (d := O) in Hcall by (rewrite length_seq; exact Hilt).
  rewrite seq_nth in Hcall by exact Hilt. cbn [option_map] in Hcall.
  injection Hcall as <-.
  destruct (clean_report_fields L NR PR cfg _ _ _ _ _ _ _ _ Hclean)
    as (_ & _ & Hlat & Hlon).
  exists r0, w1, w2. rewrite Hlat, Hlon. split; [exact Hc|].
  split; [exact Hclean|]. rewrite Hr. apply inject_cells.
Qed.

(** X9.  The distances that the sampler keeps hold between the rows of a batch
    that is written: every row is at least [min_dist_to_beacon_m] from the
    beacon, and two rows at different places are at least
    [min_dist_between_teams_m] from each other (the geodesic distance
    being symmetric). *)
Theorem batch_rows_distances (w0 : rng NR PR) (records : list report) :
  main L NR PR cfg w0 = Ok records ->
  (forall a b, geodesic_meters L a b == geodesic_meters L b a) ->
  (forall r, In r records ->
     min_dist_to_beacon_m cfg
     <= geodesic_meters L (latitude r, longitude r) (beacon_lat cfg, beacon_lon cfg))
  /\ (forall i j r q, i <> j ->
        nth_error records i = Some r -> nth_error records j = Some q ->
        min_dist_between_teams_m cfg
        <= geodesic_meters L (latitude r, longitude r) (latitude q, longitude q)).
Proof.
  intros Hmain Hsym.
  assert (Hok : placed_ok L cfg
                  (fst (fst (fst (sampler L NR cfg (np_seed NR (seed cfg)))))))
    by (apply sampling_loop_placed_ok; constructor).
  assert (Hcoord : forall i r, nth_error records i = Some r ->
            nth_error (fst (fst (fst (sampler L NR cfg (np_seed NR (seed cfg))))))  i
            = Some (latitude r, longitude r)).
  { intros i r Hi.
    destruct (main_row w0 records Hmain i r Hi) as (r0 & w1 & w2 & Hc & _ & ->).
    exact Hc. }
  split.
  - intros r Hr. apply In_nth_error in Hr. destruct Hr as [i Hi].
    apply (placed_ok_beacon L cfg _ Hok). eapply nth_error_In, Hcoord, Hi.
  - intros i j r q Hij Hi Hj.
    apply Hcoord in Hi. apply Hcoord in Hj.
    destruct (Nat.lt_total i j) as [Hlt|[Heq|Hgt]]; [| contradiction |].
    + rewrite Hsym. exact (placed_ok_later_earlier L cfg _ Hok i j _ _ Hlt Hi Hj).
    + exact (placed_ok_later_earlier L cfg _ Hok j i _ _ Hgt Hj Hi).
Qed.

Lemma min_le_r (a b : Q) : Py.min a b <= b.
Proof.
  unfold Py.min. destruct (ltb b a) eqn:E.
  - apply Qle_refl.
  - apply ltb_ge in E. exact E.
Qed.

(** X10.  The flight elevation of every row of a batch that is written is the
    ground elevation at the team plus 120 m, cut at the ceiling of 4000 m:
    it never exceeds 4000. *)
Theorem batch_elevation_ceiling (w0 : rng NR PR) (records : list report) :
  main L NR PR cfg w0 = Ok records ->
  forall r, In r records ->
    elevation_m r <= 4000
    /\ exists src,
         rasterio_open L (dem_file cfg) = Ok src
         /\ elevation_m r
            = Py.min (ds_band1 src (longitude r) (latitude r) + 120) 4000.
Proof.
  intros Hmain r Hr. apply In_nth_error in Hr. destruct Hr as [i Hi].
  destruct (main_row w0 records Hmain i r Hi) as (r0 & w1 & w2 & _ & Hclean & ->).
  destruct (clean_report_inv L NR PR cfg _ _ _ _ _ _ _ _ Hclean)
    as (src & Hopen & _ & Helev & _).
  cbn [elevation_m latitude longitude store_record].
  rewrite Helev. split; [apply min_le_r|].
  exists src. split; [exact Hopen | reflexivity].
Qed.

(** X11.  The cells of every row of a batch that is written.  In the storm the
    row has the malformed token for signal strength, -999 for wind
    direction, an integer from 150 to 299 for battery level, and the
    callsign of its team.  Outside the storm the signal strength is
    [np.nan] or a float that is not below -120, and never a string; the
    callsign is that of the team or one of the three typos. *)
Theorem batch_rows_cells (w0 : rng NR PR) (records : list report) :
  main L NR PR cfg w0 = Ok records ->
  forall i r, nth_error records i = Some r ->
    let t := (start_time cfg + Z.of_nat i * step)%Z in
    ((storm_begin cfg <= t <= storm_end cfg)%Z ->
       signal_strength r = PyStr "ERR-&^%"
       /\ wind_direction_deg r = PyInt (-999)
       /\ (exists b, battery_level_percent r = PyInt b /\ (150 <= b < 300)%Z)
       /\ team_callsign r = callsign (S i))
    /\ (~ (storm_begin cfg <= t <= storm_end cfg)%Z ->
       (signal_strength r = PyNaN
        \/ exists x, signal_strength r = PyFloat x /\ -120 <= x)
       /\ (team_callsign r = callsign (S i)
           \/ In (team_callsign r) ["Alpha"; "alfa"; "bravo"]%string)).
Proof.
  intros Hmain i r Hi t.
  destruct (main_row w0 records Hmain i r Hi) as (r0 & w1 & w2 & _ & Hclean & ->).
  destruct (clean_report_inv L NR PR cfg _ _ _ _ _ _ _ _ Hclean)
    as (src & _ & Hcs & _ & (b0 & snr & n1 & Hrss) & _).
  fold (current_time cfg i step) in t. fold t.
  cbn [signal_strength wind_direction_deg battery_level_percent team_callsign
       store_record].
  split.
  - intros Hin. apply in_storm_closed in Hin.
    destruct (corrupt_storm t (cells_of r0) w2 Hin) as (b & Hb & ->).
    cbn. split; [reflexivity|]. split; [reflexivity|].
    split; [exists b; split; [reflexivity | exact Hb] | exact Hcs].
  - intros Hout.
    assert (Hf : in_storm cfg t = false).
    { destruct (in_storm cfg t) eqn:E; [|reflexivity].
      apply in_storm_closed in E. contradiction. }
    destruct (corrupt_calm t (cells_of r0) w2 Hf) as (Hcall & Hsig & _).
    cbn [cells_of c_callsign c_signal_strength] in Hcall, Hsig.
    split.
    + destruct Hsig as [->| ->]; [|left; reflexivity].
      destruct (compute_rss_floor_checked L NR _ _ _ _ _ _ _ _ _ _ _ _ _ _ _ Hrss)
        as (_ & raw & Hres).
      destruct (floor_check_cases raw b0 (-120)) as (_ & _ & Hcases).
      rewrite <- Hres in Hcases. cbn [fst snd] in Hcases.
      destruct Hcases as [[Hnan _]|(Hfloat & Hfloor & _)].
      * left. exact Hnan.
      * right. exists raw. split; assumption.
    + rewrite <- Hcs. exact Hcall.
Qed.

End BatchContents.

(** ** The script: an unreadable raster, no team at all *)

Section ScriptEdges.

Variable L : Library.
Variable NR : NumpyRandom.
Variable PR : PyRandom.
Variable cfg : Config.

(** X12.  When the raster cannot be opened and the sampler has placed the teams
    asked for, at least one, the script stops on the exception of
    [rasterio.open], raised for the first team, and writes no row. *)
Theorem main_raster_error (w0 : rng NR PR) (e : exn) :
  rasterio_open L (dem_file cfg) = Raise e ->
  (1 <= num_points cfg)%nat ->
  (num_points cfg <= placed L NR cfg)%nat ->
  main L NR PR cfg w0 = Raise e.
Proof.
  unfold placed. intros Hopen Hone Hfull.
  destruct (sampling_loop_callsigns L NR cfg (max_attempts cfg) [] [] 0
              (np_seed NR (seed cfg)) eq_refl) as (Hcs & _ & _);
    [cbn; lia | cbn; lia |].
  fold (sampler L NR cfg (np_seed NR (seed cfg))) in Hcs.
  unfold main, np_random_seed, random_seed. cbn [fst snd].
  destruct (sampler L NR cfg (np_seed NR (seed cfg)))
    as [[[team_coords team_callsigns] attempts] n1].
  cbn [fst snd] in Hcs, Hfull.
  destruct (Nat.ltb_spec (List.length team_coords) (num_points cfg)); [lia|].
  destruct (py_randint PR 1 10 (py_seed PR (seed cfg))) as [minutes p1].
  destruct team_coords as [|[lat lon] team_coords]; [cbn in Hfull; lia|].
  cbn [List.length seq map] in Hcs. subst team_callsigns.
  cbn [combine report_loop].
  unfold loop_body, clean_report, elevation_float, get_elevation.
  rewrite Hopen. reflexivity.
Qed.

(** X13.  With no team asked for, the script writes an empty batch: it draws no
    candidate and does not open the raster. *)
Theorem main_no_teams (w0 : rng NR PR) :
  num_points cfg = 0%nat ->
  sampler L NR cfg (np_seed NR (seed cfg)) = ([], [], 0%nat, np_seed NR (seed cfg))
  /\ main L NR PR cfg w0 = Ok [].
Proof.
  intros Hzero.
  assert (Hs : sampler L NR cfg (np_seed NR (seed cfg))
               = ([], [], 0%nat, np_seed NR (seed cfg))).
  { unfold sampler. destruct (max_attempts cfg); cbn [sampling_loop];
      rewrite Hzero; reflexivity. }
  split; [exact Hs|].
  unfold main, np_random_seed, random_seed. cbn [fst snd].
  rewrite Hs, Hzero. cbn.
  destruct (py_randint PR 1 10 (py_seed PR (seed cfg))). reflexivity.
Qed.

End ScriptEdges.

(** ** The further properties at work on the small world *)

(** The small mission with a raster that is not there. *)
Definition no_raster : Library := {|
  geodesic_meters := geodesic_meters Toy.library;
  log10 := log10 Toy.library;
  rasterio_open := fun path => Raise (RasterioIOError path);
  isoformat := isoformat Toy.library
|}.

Lemma small_batch :
  exists records,
    main Toy.library Toy.numpy_random Toy.python_random Toy.small (0%Z, 0%Z)
    = Ok records.
Proof.
  apply (main_returns Toy.library Toy.numpy_random Toy.python_random
           Toy.small Toy.dem eq_refl (0%Z, 0%Z)).
  vm_compute. lia.
Qed.

Lemma batch_rows_witness :
  exists records,
    main Toy.library Toy.numpy_random Toy.python_random Toy.small (0%Z, 0%Z)
    = Ok records
    /\ map report_id records = [1; 2; 3]%nat.
Proof.
  destruct small_batch as [records Hmain]. exists records.
  split; [exact Hmain|].
  apply (batch_rows Toy.library Toy.numpy_random Toy.python_random Toy.small
           (0%Z, 0%Z) records Hmain).
Defined.

Lemma batch_rows_distances_witness :
  exists records,
    main Toy.library Toy.numpy_random Toy.python_random Toy.small (0%Z, 0%Z)
    = Ok records
    /\ forall r, In r records ->
         1609.34 <= geodesic_meters Toy.library (latitude r, longitude r)
                      (37.42, -119.05).
Proof.
  destruct small_batch as [records Hmain]. exists records.
  split; [exact Hmain|].
  apply (batch_rows_distances Toy.library Toy.numpy_random Toy.python_random
           Toy.small (0%Z, 0%Z) records Hmain toy_geodesic_symmetric).
Defined.

Lemma batch_elevation_ceiling_witness :
  exists records,
    main Toy.library Toy.numpy_random Toy.python_random Toy.small (0%Z, 0%Z)
    = Ok records
    /\ forall r, In r records -> elevation_m r <= 4000.
Proof.
  destruct small_batch as [records Hmain]. exists records.
  split; [exact Hmain|].
  intros r Hr.
  apply (batch_elevation_ceiling Toy.library Toy.numpy_random Toy.python_random
           Toy.small (0%Z, 0%Z) records Hmain r Hr).
Defined.

Lemma batch_rows_cells_witness :
  exists records,
    main Toy.library Toy.numpy_random Toy.python_random Toy.small (0%Z, 0%Z)
    = Ok records
    /\ forall r, nth_error records 0 = Some r ->
         signal_strength r = PyNaN
         \/ exists x, signal_strength r = PyFloat x /\ -120 <= x.
Proof.
  destruct small_batch as [records Hmain]. exists records.
  split; [exact Hmain|].
  intros r Hr.
  apply (batch_rows_cells Toy.library Toy.numpy_random Toy.python_random
           Toy.small (0%Z, 0%Z) records Hmain 0 r Hr).
  vm_compute. intros [H _]. apply H. reflexivity.
Defined.

Lemma main_raster_error_witness :
  main no_raster Toy.numpy_random Toy.python_random Toy.small (0%Z, 0%Z)
  = Raise (RasterioIOError "data/sierra_dem.tif").
Proof.
  apply (main_raster_error no_raster Toy.numpy_random Toy.python_random
           Toy.small (0%Z, 0%Z)).
  - reflexivity.
  - vm_compute. lia.
  - vm_compute. lia.
Defined.

Lemma main_no_teams_witness :
  main Toy.library Toy.numpy_random Toy.python_random
    {| seed := 101; LAT_MIN := 37.1; LAT_MAX := 37.6;
       LON_MIN := -119.4; LON_MAX := -118.8;
       beacon_lat := 37.42; beacon_lon := -119.05;
       dem_file := "data/sierra_dem.tif";
       num_points := 0;
       min_dist_to_beacon_m := 1609.34; min_dist_between_teams_m := 2011.68;
       max_attempts := 20;
       start_time := datetime_2025_08_21 6 0 0;
       storm_begin := datetime_2025_08_21 8 0 0;
       storm_end := datetime_2025_08_21 9 30 0 |} (0%Z, 0%Z)
  = Ok [].
Proof.
  apply main_no_teams. reflexivity.
Defined.

Lemma map_by_nth_error {A B : Type} (f : A -> B) (l : list A) (l' : list B) :
  List.length l = List.length l' ->
  (forall i a, nth_error l i = Some a -> nth_error l' i = Some (f a)) ->
  map f l = l'.
Proof.
  intros Hlen H. apply nth_error_ext. intros i. rewrite nth_error_map.
  destruct (nth_error l i) as [a|] eqn:E; cbn [option_map].
  - symmetry. apply H, E.
  - symmetry. apply nth_error_None. apply nth_error_None in E. lia.
Qed.

(** ** The second batch *)

Section Batch2.

Variable L : Library.
Variable NR : NumpyRandom.
Variable PR : PyRandom.
Variable cfg : Config.

(** The [while] loop of the second script places the teams of the loop of
    the first one: only the callsigns differ. *)
Lemma sampling_loop_2_as_1 (fuel : nat) :
  forall team_coords callsigns_1 callsigns_2 attempts s,
    let r1 := sampling_loop L NR cfg fuel team_coords callsigns_1 attempts s in
    let r2 := sampling_loop_2 L NR cfg fuel team_coords callsigns_2 attempts s in
    fst (fst (fst r2)) = fst (fst (fst r1))
    /\ snd (fst r2) = snd (fst r1)
    /\ snd r2 = snd r1.
Proof.
  induction fuel as [|fuel IH]; intros team_coords callsigns_1 callsigns_2 attempts s;
    cbn [sampling_loop sampling_loop_2];
    destruct ((List.length team_coords <? num_points cfg)%nat
              && (attempts <? max_attempts cfg)%nat); cbn [fst snd]; auto.
  destruct (np_uniform NR (LAT_MIN cfg) (LAT_MAX cfg) s) as [lat s1].
  destruct (np_uniform NR (LON_MIN cfg) (LON_MAX cfg) s1) as [lon s2].
  destruct (ltb _ _); [apply IH|].
  destruct (too_close _ _ _ _ _); apply IH.
Qed.

Lemma sampling_loop_2_callsigns (fuel : nat) :
  forall team_coords team_callsigns attempts s,
    team_callsigns = map grid_callsign (seq 1 (List.length team_coords)) ->
    let r := sampling_loop_2 L NR cfg fuel team_coords team_callsigns attempts s in
    snd (fst (fst r)) = map grid_callsign (seq 1 (List.length (fst (fst (fst r))))).
Proof.
  induction fuel as [|fuel IH]; intros team_coords team_callsigns attempts s Hcs;
    cbn [sampling_loop_2];
    destruct ((List.length team_coords <? num_points cfg)%nat
              && (attempts <? max_attempts cfg)%nat); cbn [fst snd]; auto.
  destruct (np_uniform NR (LAT_MIN cfg) (LAT_MAX cfg) s) as [lat s1].
  destruct (np_uniform NR (LON_MIN cfg) (LON_MAX cfg) s1) as [lon s2].
  destruct (ltb _ _); [apply IH; auto|].
  destruct (too_close _ _ _ _ _); [apply IH; auto|].
  apply IH. rewrite length_app. cbn [List.length].
  rewrite Nat.add_1_r, seq_S, map_app, <- Hcs. reflexivity.
Qed.

(** The teams of the second script, as those of the loop of the first. *)
Lemma sampler_2_teams (s : np_state NR) :
  let team_coords := fst (fst (fst (sampler L NR cfg s))) in
  fst (fst (fst (sampler_2 L NR cfg s))) = team_coords
  /\ snd (fst (fst (sampler_2 L NR cfg s)))
     = map grid_callsign (seq 1 (List.length team_coords))
  /\ (List.length team_coords <= num_points cfg)%nat.
Proof.
  intros team_coords.
  destruct (sampling_loop_2_as_1 (max_attempts cfg) [] [] [] 0 s) as (Hc & _).
  fold (sampler L NR cfg s) (sampler_2 L NR cfg s) in Hc. fold team_coords in Hc.
  split; [exact Hc|]. split.
  - rewrite <- Hc. apply sampling_loop_2_callsigns. reflexivity.
  - destruct (sampling_loop_callsigns L NR cfg (max_attempts cfg) [] [] 0 s eq_refl)
      as (_ & _ & Hnum); [cbn; lia | cbn; lia |]. exact Hnum.
Qed.

Lemma report_loop_2_rows (time_increment : Z) (teams : list ((Q * Q) * string)) :
  forall i records w records' w',
    report_loop_2 L NR PR cfg i teams time_increment records w = Ok (records', w') ->
    exists rows,
      records' = records ++ rows
      /\ List.length rows = List.length teams
      /\ forall j r, nth_error rows j = Some r ->
           exists team_lat team_lon cs r0 w1 w2,
             nth_error teams j = Some ((team_lat, team_lon), cs)
             /\ clean_report L NR PR cfg (i + j) team_lat team_lon cs
                  time_increment w1 = Ok (r0, w2)
             /\ r = store_record_2 (i + j) r0
                      (fst (general_messiness NR PR (cells_of r0) w2)).
Proof.
  induction teams as [|[[team_lat team_lon] cs] teams IH];
    intros i records w records' w' H; cbn [report_loop_2] in H.
  - injection H as <- _. exists []. rewrite app_nil_r.
    split; [reflexivity|]. split; [reflexivity|].
    intros [|j] r Hj; discriminate Hj.
  - unfold loop_body_2 in H.
    destruct (clean_report L NR PR cfg i team_lat team_lon cs time_increment w)
      as [[r0 w0]|e] eqn:E; cbn [rbind fst snd] in H; [|discriminate].
    destruct (general_messiness NR PR (cells_of r0) w0) as [c wm] eqn:Em.
    cbn [rbind fst snd] in H.
    apply IH in H. destruct H as (rows & -> & Hlen & Hrows).
    exists (store_record_2 i r0 c :: rows).
    rewrite <- app_assoc. split; [reflexivity|].
    split; [cbn; lia|].
    intros [|j] r Hj; cbn in Hj.
    + injection Hj as <-. rewrite Nat.add_0_r.
      exists team_lat, team_lon, cs, r0, w, w0. rewrite Em. auto.
    + destruct (Hrows j r Hj) as (lat & lon & cs' & r1 & w1 & w2 & Ht & Hc & Hr).
      replace (i + S j)%nat with (S i + j)%nat by lia.
      exists lat, lon, cs', r1, w1, w2. auto.
Qed.

(** The step between two reports of the second batch. *)
Let step_2 : Z :=
  timedelta_minutes (fst (py_randint PR 1 5 (py_seed PR (seed cfg)))).

(** The rows of a second batch that is written. *)
Lemma main_2_row (w0 : rng NR PR) (records : list report) :
  main_2 L NR PR cfg w0 = Ok records ->
  let team_coords := fst (fst (fst (sampler L NR cfg (np_seed NR (seed cfg))))) in
  List.length team_coords = num_points cfg
  /\ List.length records = num_points cfg
  /\ forall i r, nth_error records i = Some r ->
       exists r0 w1 w2,
         nth_error team_coords i = Some (latitude r0, longitude r0)
         /\ clean_report L NR PR cfg i (latitude r0) (longitude r0)
              (grid_callsign (S i)) step_2 w1 = Ok (r0, w2)
         /\ r = store_record_2 i r0
                  (fst (general_messiness NR PR (cells_of r0) w2)).
Proof.
  intros Hmain team_coords.
  destruct (sampler_2_teams (np_seed NR (seed cfg))) as (Hc & Hcs & Hnum).
  fold team_coords in Hc, Hcs, Hnum.
  unfold main_2, np_random_seed, random_seed in Hmain. cbn [fst snd] in Hmain.
  destruct (sampler_2 L NR cfg (np_seed NR (seed cfg)))
    as [[[tc tcs] attempts] n1].
  cbn [fst snd] in Hc, Hcs. subst tc tcs.
  destruct (Nat.ltb_spec (List.length team_coords) (num_points cfg));
    [discriminate|].
  assert (Hlen : List.length team_coords = num_points cfg) by lia.
  fold step_2 in Hmain.
  destruct (py_randint PR 1 5 (py_seed PR (seed cfg))) as [minutes p1].
  cbn [fst snd] in Hmain.
  destruct (report_loop_2 _ _ _ _ _ _ _ _ _) as [[records' w']|e] eqn:E;
    cbn [rbind fst] in Hmain; [|discriminate].
  injection Hmain as ->.
  apply report_loop_2_rows in E. destruct E as (rows & -> & Hrows & Hrow).
  cbn [app]. rewrite length_combine, length_map, length_seq, Nat.min_id, Hlen in Hrows.
  split; [exact Hlen|]. split; [exact Hrows|].
  intros i r Hi.
  destruct (Hrow i r Hi) as (lat & lon & cs & r0 & w1 & w2 & Hteam & Hclean & Hr).
  cbn [Nat.add] in Hclean, Hr.
  apply nth_error_combine in Hteam. destruct Hteam as [Hco Hcall].
  rewrite nth_error_map in Hcall.
  assert (Hilt : (i < List.length team_coords)%nat)
    by (apply nth_error_Some; congruence).
  rewrite nth_error_nth' with (d := O) in Hcall by (rewrite length_seq; exact Hilt).
  rewrite seq_nth in Hcall by exact Hilt. cbn [option_map] in Hcall.
  injection Hcall as <-.
  destruct (clean_report_fields L NR PR cfg _ _ _ _ _ _ _ _ Hclean)
    as (_ & _ & Hlat & Hlon).
  exists r0, w1, w2. rewrite Hlat, Hlon. auto.
Qed.

(** X14.  A second batch that is written has one row for each of the
    [num_points] teams, in the order of placement, with the report ids
    201, 202, ... and the coordinates of the teams; the report of index [i]
    has the timestamp of [start_time] plus [i] times one step of 1 to 5
    minutes, drawn once. *)
Theorem batch_2_rows (w0 : rng NR PR) (records : list report) :
  main_2 L NR PR cfg w0 = Ok records ->
  List.length records = num_points cfg
  /\ map report_id records = seq 201 (num_points cfg)
  /\ map (fun r => (latitude r, longitude r)) records
     = fst (fst (fst (sampler_2 L NR cfg (np_seed NR (seed cfg)))))
  /\ (60 <= step_2 <= 300)%Z
  /\ forall i r, nth_error records i = Some r ->
       timestamp r = isoformat L (start_time cfg + Z.of_nat i * step_2)%Z.
Proof.
  intros Hmain.
  destruct (main_2_row w0 records Hmain) as (Hlen & Hrows & Hrow).
  destruct (sampler_2_teams (np_seed NR (seed cfg))) as (-> & _).
  split; [exact Hrows|]. split; [|split; [|split]].
  - apply map_by_nth_error; [rewrite length_seq; exact Hrows|].
    intros i r Hi.
    destruct (Hrow i r Hi) as (r0 & w1 & w2 & _ & _ & ->).
    assert (Hilt : (i < num_points cfg)%nat)
      by (rewrite <- Hrows; apply nth_error_Some; congruence).
    rewrite nth_error_nth' with (d := O) by (rewrite length_seq; exact Hilt).
    rewrite seq_nth by exact Hilt. cbn [report_id store_record_2]. f_equal. lia.
  - apply map_by_nth_error; [rewrite Hrows, Hlen; reflexivity|].
    intros i r Hi.
    destruct (Hrow i r Hi) as (r0 & w1 & w2 & Hc & _ & ->). exact Hc.
  - pose proof (py_randint_range PR 1 5 (py_seed PR (seed cfg))) as Hrange.
    unfold step_2, timedelta_minutes. lia.
  - intros i r Hi.
    destruct (Hrow i r Hi) as (r0 & w1 & w2 & _ & Hclean & ->).
    destruct (clean_report_fields L NR PR cfg _ _ _ _ _ _ _ _ Hclean)
      as (_ & Hts & _).
    cbn [timestamp store_record_2]. exact Hts.
Qed.

(** X15.  The rows of a second batch that is written keep the distances of the
    sampler: at least [min_dist_to_beacon_m] from the beacon, and at least
    [min_dist_between_teams_m] between two rows at different places (the
    geodesic distance being symmetric). *)
Theorem batch_2_rows_distances (w0 : rng NR PR) (records : list report) :
  main_2 L NR PR cfg w0 = Ok records ->
  (forall a b, geodesic_meters L a b == geodesic_meters L b a) ->
  (forall r, In r records ->
     min_dist_to_beacon_m cfg
     <= geodesic_meters L (latitude r, longitude r) (beacon_lat cfg, beacon_lon cfg))
  /\ (forall i j r q, i <> j ->
        nth_error records i = Some r -> nth_error records j = Some q ->
        min_dist_between_teams_m cfg
        <= geodesic_meters L (latitude r, longitude r) (latitude q, longitude q)).
Proof.
  intros Hmain Hsym.
  destruct (main_2_row w0 records Hmain) as (_ & _ & Hrow).
  assert (Hok : placed_ok L cfg
                  (fst (fst (fst (sampler L NR cfg (np_seed NR (seed cfg)))))))
    by (apply sampling_loop_placed_ok; constructor).
  assert (Hcoord : forall i r, nth_error records i = Some r ->
            nth_error (fst (fst (fst (sampler L NR cfg (np_seed NR (seed cfg))))))  i
            = Some (latitude r, longitude r)).
  { intros i r Hi.
    destruct (Hrow i r Hi) as (r0 & w1 & w2 & Hc & _ & ->). exact Hc. }
  split.
  - intros r Hr. apply In_nth_error in Hr. destruct Hr as [i Hi].
    apply (placed_ok_beacon L cfg _ Hok). eapply nth_error_In, Hcoord, Hi.
  - intros i j r q Hij Hi Hj.
    apply Hcoord in Hi. apply Hcoord in Hj.
    destruct (Nat.lt_total i j) as [Hlt|[Heq|Hgt]]; [| contradiction |].
    + rewrite Hsym. exact (placed_ok_later_earlier L cfg _ Hok i j _ _ Hlt Hi Hj).
    + exact (placed_ok_later_earlier L cfg _ Hok j i _ _ Hgt Hj Hi).
Qed.

(** X16.  No row of a second batch that is written bears the marks of the solar
    storm: the signal strength is [np.nan] or a float that is not below
    -120, the wind direction a float or one of the three placeholders, the
    battery level a float or [np.nan], and the callsign that of the team,
    GRID and its number, or one of the three typos. *)
Theorem batch_2_rows_cells (w0 : rng NR PR) (records : list report) :
  main_2 L NR PR cfg w0 = Ok records ->
  forall i r, nth_error records i = Some r ->
    (signal_strength r = PyNaN
     \/ exists x, signal_strength r = PyFloat x /\ -120 <= x)
    /\ ((exists x, wind_direction_deg r = PyFloat x)
        \/ exists t, In t ["?"; "N/A"; EmptyString]%string
                     /\ wind_direction_deg r = PyStr t)
    /\ ((exists x, battery_level_percent r = PyFloat x)
        \/ battery_level_percent r = PyNaN)
    /\ (team_callsign r = grid_callsign (S i)
        \/ In (team_callsign r) ["Alpha"; "alfa"; "bravo"]%string).
Proof.
  intros Hmain i r Hi.
  destruct (main_2_row w0 records Hmain) as (_ & _ & Hrow).
  destruct (Hrow i r Hi) as (r0 & w1 & w2 & _ & Hclean & ->).
  destruct (clean_report_inv L NR PR cfg _ _ _ _ _ _ _ _ Hclean)
    as (src & _ & Hcs & _ & (b0 & snr & n1 & Hrss) & Hwind & Hbat).
  destruct (general_messiness_messy NR PR (cells_of r0) w2)
    as ((Hcall & Hsig & Hw & Hb) & _).
  cbn [cells_of c_callsign c_signal_strength c_wind_direction_deg
       c_battery_level_percent] in Hcall, Hsig, Hw, Hb.
  cbn [signal_strength wind_direction_deg battery_level_percent team_callsign
       store_record_2].
  split; [|split; [|split]].
  - destruct Hsig as [->| ->]; [|left; reflexivity].
    destruct (compute_rss_floor_checked L NR _ _ _ _ _ _ _ _ _ _ _ _ _ _ _ Hrss)
      as (_ & raw & Hres).
    destruct (floor_check_cases raw b0 (-120)) as (_ & _ & Hcases).
    rewrite <- Hres in Hcases. cbn [fst snd] in Hcases.
    destruct Hcases as [[Hnan _]|(Hfloat & Hfloor & _)].
    + left. exact Hnan.
    + right. exists raw. split; assumption.
  - destruct Hw as [->|Ht]; [left; exact Hwind | right; exact Ht].
  - destruct Hb as [->| ->]; [left; exact Hbat | right; reflexivity].
  - rewrite <- Hcs. exact Hcall.
Qed.

End Batch2.

(** X17.  The report ids of a first batch of at most 200 teams and those of a
    second batch never meet: every id of the first is below every id of
    the second, which start at 201. *)
Theorem report_ids_continue (L : Library) (NR : NumpyRandom) (PR : PyRandom)
    (cfg_1 cfg_2 : Config) (w w' : rng NR PR) (records_1 records_2 : list report) :
  (num_points cfg_1 <= 200)%nat ->
  main L NR PR cfg_1 w = Ok records_1 ->
  main_2 L NR PR cfg_2 w' = Ok records_2 ->
  forall r1 r2, In r1 records_1 -> In r2 records_2 ->
    (report_id r1 < report_id r2)%nat.
Proof.
  intros Hsize Hmain1 Hmain2 r1 r2 H1 H2.
  apply In_nth_error in H1. destruct H1 as [i Hi].
  apply In_nth_error in H2. destruct H2 as [j Hj].
  destruct (main_teams L NR PR cfg_1 w records_1 Hmain1) as (Hlen & Hcs & n1 & w1 & Hloop).
  apply report_loop_rows in Hloop. destruct Hloop as (rows & -> & Hrows & Hrow).
  cbn [app] in Hi. destruct (Hrow i r1 Hi) as (Hid & _).
  assert (Hilt : (i < List.length rows)%nat) by (apply nth_error_Some; congruence).
  rewrite Hrows, length_combine, Hcs, length_map, length_seq, Hlen, Nat.min_id in Hilt.
  destruct (main_2_row L NR PR cfg_2 w' records_2 Hmain2) as (_ & _ & Hrow2).
  destruct (Hrow2 j r2 Hj) as (r0 & wa & wb & _ & _ & ->).
  cbn [report_id store_record_2]. lia.
Qed.

(** ** The historical mission *)

Section HistoricalRows.

Variable L : Library.
Variable NR : NumpyRandom.
Variable PR : PyRandom.
Variable cfg : Config.

Lemma history_body_inv (i : nat) (team_lat team_lon : Q) (cs : string)
    (n n' : np_state NR) (r : history_row) :
  history_body L NR cfg i team_lat team_lon cs n = Ok (r, n') ->
  h_report_id r = (i + 1)%nat
  /\ h_team_callsign r = cs
  /\ h_team_lat r = team_lat /\ h_team_lon r = team_lon
  /\ h_beacon_lat r = beacon_lat cfg /\ h_beacon_lon r = beacon_lon cfg
  /\ exists beacon_elev team_elev blockage_m snr,
       compute_rss L NR (beacon_lat cfg) (beacon_lon cfg) beacon_elev
         team_lat team_lon team_elev (dem_file cfg) (-30) 0.2 (-120) n
       = Ok (h_signal_strength r, blockage_m, snr, n').
Proof.
  unfold history_body.
  destruct (elevation_float L cfg team_lat team_lon) as [ground|e];
    cbn [rbind]; [|discriminate].
  destruct (elevation_float L cfg (beacon_lat cfg) (beacon_lon cfg))
    as [beacon_elev|e]; cbn [rbind]; [|discriminate].
  destruct (compute_rss _ _ _ _ _ _ _ _ _ _ _ _ _)
    as [[[[sig blockage_m] snr] n1]|e] eqn:Erss; cbn [rbind]; [|discriminate].
  intros H. injection H as <- <-. cbn.
  repeat (split; [reflexivity|]).
  do 4 eexists. exact Erss.
Qed.

Lemma history_loop_rows (teams : list ((Q * Q) * string)) :
  forall i records n records' n',
    history_loop L NR cfg i teams records n = Ok (records', n') ->
    exists rows,
      records' = records ++ rows
      /\ List.length rows = List.length teams
      /\ forall j r, nth_error rows j = Some r ->
           exists team_lat team_lon cs n1 n2,
             nth_error teams j = Some ((team_lat, team_lon), cs)
             /\ history_body L NR cfg (i + j) team_lat team_lon cs n1 = Ok (r, n2).
Proof.
  induction teams as [|[[team_lat team_lon] cs] teams IH];
    intros i records n records' n' H; cbn [history_loop] in H.
  - injection H as <- _. exists []. rewrite app_nil_r.
    split; [reflexivity|]. split; [reflexivity|].
    intros [|j] r Hj; discriminate Hj.
  - destruct (history_body L NR cfg i team_lat team_lon cs n)
      as [[r0 n0]|e] eqn:E; cbn [rbind fst snd] in H; [|discriminate].
    apply IH in H. destruct H as (rows & -> & Hlen & Hrows).
    exists (r0 :: rows). rewrite <- app_assoc. split; [reflexivity|].
    split; [cbn; lia|].
    intros [|j] r Hj; cbn in Hj.
    + injection Hj as <-. rewrite Nat.add_0_r.
      exists team_lat, team_lon, cs, n, n0. auto.
    + destruct (Hrows j r Hj) as (lat & lon & cs' & n1 & n2 & Ht & Hb).
      replace (i + S j)%nat with (S i + j)%nat by lia.
      exists lat, lon, cs', n1, n2. auto.
Qed.

(** The rows of a historical data set that is written. *)
Lemma main_historical_row (w0 : rng NR PR) (records : list history_row) :
  main_historical L NR PR cfg w0 = Ok records ->
  let team_coords := fst (fst (fst (sampler L NR cfg (np_seed NR (seed cfg))))) in
  List.length team_coords = num_points cfg
  /\ List.length records = num_points cfg
  /\ forall i r, nth_error records i = Some r ->
       exists n1 n2,
         nth_error team_coords i = Some (h_team_lat r, h_team_lon r)
         /\ history_body L NR cfg i (h_team_lat r) (h_team_lon r)
              (callsign (S i)) n1 = Ok (r, n2).
Proof.
  intros Hmain team_coords.
  destruct (sampling_loop_callsigns L NR cfg (max_attempts cfg) [] [] 0
              (np_seed NR (seed cfg)) eq_refl) as (Hcs & _ & Hnum);
    [cbn; lia | cbn; lia |].
  fold (sampler L NR cfg (np_seed NR (seed cfg))) in Hcs, Hnum.
  fold team_coords in Hcs, Hnum.
  unfold main_historical, np_random_seed, random_seed in Hmain.
  cbn [fst snd] in Hmain. subst team_coords.
  destruct (sampler L NR cfg (np_seed NR (seed cfg)))
    as [[[team_coords tcs] attempts] n1].
  cbn [fst snd] in Hcs, Hnum |- *. subst tcs.
  destruct (Nat.ltb_spec (List.length team_coords) (num_points cfg));
    [discriminate|].
  assert (Hlen : List.length team_coords = num_points cfg) by lia.
  destruct (history_loop _ _ _ _ _ _ _) as [[records' n']|e] eqn:E;
    cbn [rbind fst] in Hmain; [|discriminate].
  injection Hmain as ->.
  apply history_loop_rows in E. destruct E as (rows & -> & Hrows & Hrow).
  cbn [app]. rewrite length_combine, length_map, length_seq, Nat.min_id, Hlen in Hrows.
  split; [exact Hlen|]. split; [exact Hrows|].
  intros i r Hi.
  destruct (Hrow i r Hi) as (lat & lon & cs & na & nb & Hteam & Hbody).
  cbn [Nat.add] in Hbody.
  apply nth_error_combine in Hteam. destruct Hteam as [Hco Hcall].
  rewrite nth_error_map in Hcall.
  assert (Hilt : (i < List.length team_coords)%nat)
    by (apply nth_error_Some; congruence).
  rewrite nth_error_nth' with (d := O) in Hcall by (rewrite length_seq; exact Hilt).
  rewrite seq_nth in Hcall by exact Hilt. cbn [option_map] in Hcall.
  injection Hcall as <-.
  destruct (history_body_inv _ _ _ _ _ _ _ Hbody) as (_ & _ & Hlat & Hlon & _).
  exists na, nb. rewrite Hlat, Hlon. auto.
Qed.

(** X18.  A historical data set that is written has one row for each of the
    [num_points] teams, in the order of placement, with the report ids 1,
    2, ..., the callsigns TEAM001, TEAM002, ... as the sampler gave them
    and the coordinates of the teams; every row has the coordinates of the
    beacon, and a signal strength that is [np.nan] or a float that is not
    below -120. *)
Theorem historical_rows (w0 : rng NR PR) (records : list history_row) :
  main_historical L NR PR cfg w0 = Ok records ->
  List.length records = num_points cfg
  /\ map h_report_id records = seq 1 (num_points cfg)
  /\ map h_team_callsign records = map callsign (seq 1 (num_points cfg))
  /\ map (fun r => (h_team_lat r, h_team_lon r)) records
     = fst (fst (fst (sampler L NR cfg (np_seed NR (seed cfg)))))
  /\ forall r, In r records ->
       h_beacon_lat r = beacon_lat cfg /\ h_beacon_lon r = beacon_lon cfg
       /\ (h_signal_strength r = PyNaN
           \/ exists x, h_signal_strength r = PyFloat x /\ -120 <= x).
Proof.
  intros Hmain.
  destruct (main_historical_row w0 records Hmain) as (Hlen & Hrows & Hrow).
  assert (Hnth : forall i r, nth_error records i = Some r -> (i < num_points cfg)%nat).
  { intros i r Hi. rewrite <- Hrows. apply nth_error_Some. congruence. }
  split; [exact Hrows|]. split; [|split; [|split]].
  - apply map_by_nth_error; [rewrite length_seq; exact Hrows|].
    intros i r Hi. destruct (Hrow i r Hi) as (n1 & n2 & _ & Hbody).
    destruct (history_body_inv _ _ _ _ _ _ _ Hbody) as (Hid & _).
    rewrite nth_error_nth' with (d := O) by (rewrite length_seq; eauto).
    rewrite seq_nth by eauto. rewrite Hid. f_equal. lia.
  - apply map_by_nth_error; [rewrite length_map, length_seq; exact Hrows|].
    intros i r Hi. destruct (Hrow i r Hi) as (n1 & n2 & _ & Hbody).
    destruct (history_body_inv _ _ _ _ _ _ _ Hbody) as (_ & Hcs & _).
    rewrite nth_error_map.
    rewrite nth_error_nth' with (d := O) by (rewrite length_seq; eauto).
    rewrite seq_nth by eauto. cbn [option_map]. rewrite Hcs. reflexivity.
  - apply map_by_nth_error; [rewrite Hrows, Hlen; reflexivity|].
    intros i r Hi. destruct (Hrow i r Hi) as (n1 & n2 & Hc & _). exact Hc.
  - intros r Hr. apply In_nth_error in Hr. destruct Hr as [i Hi].
    destruct (Hrow i r Hi) as (n1 & n2 & _ & Hbody).
    destruct (history_body_inv _ _ _ _ _ _ _ Hbody)
      as (_ & _ & _ & _ & Hblat & Hblon & be & te & b0 & snr & Hrss).
    split; [exact Hblat|]. split; [exact Hblon|].
    destruct (compute_rss_floor_checked L NR _ _ _ _ _ _ _ _ _ _ _ _ _ _ _ Hrss)
      as (_ & raw & Hres).
    destruct (floor_check_cases raw b0 (-120)) as (_ & _ & Hcases).
    rewrite <- Hres in Hcases. cbn [fst snd] in Hcases.
    destruct Hcases as [[Hnan _]|(Hfloat & Hfloor & _)].
    + left. exact Hnan.
    + right. exists raw. split; assumption.
Qed.

(** X19.  The rows of a historical data set that is written keep the distances
    of the sampler (the geodesic distance being symmetric). *)
Theorem historical_rows_distances (w0 : rng NR PR) (records : list history_row) :
  main_historical L NR PR cfg w0 = Ok records ->
  (forall a b, geodesic_meters L a b == geodesic_meters L b a) ->
  (forall r, In r records ->
     min_dist_to_beacon_m cfg
     <= geodesic_meters L (h_team_lat r, h_team_lon r) (h_beacon_lat r, h_beacon_lon r))
  /\ (forall i j r q, i <> j ->
        nth_error records i = Some r -> nth_error records j = Some q ->
        min_dist_between_teams_m cfg
        <= geodesic_meters L (h_team_lat r, h_team_lon r) (h_team_lat q, h_team_lon q)).
Proof.
  intros Hmain Hsym.
  destruct (main_historical_row w0 records Hmain) as (_ & _ & Hrow).
  assert (Hok : placed_ok L cfg
                  (fst (fst (fst (sampler L NR cfg (np_seed NR (seed cfg)))))))
    by (apply sampling_loop_placed_ok; constructor).
  split.
  - intros r Hr. apply In_nth_error in Hr. destruct Hr as [i Hi].
    destruct (Hrow i r Hi) as (n1 & n2 & Hc & Hbody).
    destruct (history_body_inv _ _ _ _ _ _ _ Hbody)
      as (_ & _ & _ & _ & -> & -> & _).
    apply (placed_ok_beacon L cfg _ Hok). eapply nth_error_In, Hc.
  - intros i j r q Hij Hi Hj.
    destruct (Hrow i r Hi) as (n1 & n2 & Hci & _).
    destruct (Hrow j q Hj) as (n3 & n4 & Hcj & _).
    destruct (Nat.lt_total i j) as [Hlt|[Heq|Hgt]]; [| contradiction |].
    + rewrite Hsym. exact (placed_ok_later_earlier L cfg _ Hok i j _ _ Hlt Hci Hcj).
    + exact (placed_ok_later_earlier L cfg _ Hok j i _ _ Hgt Hcj Hci).
Qed.

End HistoricalRows.

(** ** The other two scripts at work on the small world *)

Lemma small_batch_2 :
  exists records,
    main_2 Toy.library Toy.numpy_random Toy.python_random Toy.small (0%Z, 0%Z)
    = Ok records.
Proof. eexists. vm_compute. reflexivity. Qed.

Lemma small_history :
  exists records,
    main_historical Toy.library Toy.numpy_random Toy.python_random Toy.small
      (0%Z, 0%Z) = Ok records.
Proof. eexists. vm_compute. reflexivity. Qed.

Lemma batch_2_rows_witness :
  exists records,
    main_2 Toy.library Toy.numpy_random Toy.python_random Toy.small (0%Z, 0%Z)
    = Ok records
    /\ map report_id records = [201; 202; 203]%nat.
Proof.
  destruct small_batch_2 as [records Hmain]. exists records.
  split; [exact Hmain|].
  apply (batch_2_rows Toy.library Toy.numpy_random Toy.python_random Toy.small
           (0%Z, 0%Z) records Hmain).
Defined.

Lemma batch_2_rows_distances_witness :
  exists records,
    main_2 Toy.library Toy.numpy_random Toy.python_random Toy.small (0%Z, 0%Z)
    = Ok records
    /\ forall r, In r records ->
         1609.34 <= geodesic_meters Toy.library (latitude r, longitude r)
                      (37.42, -119.05).
Proof.
  destruct small_batch_2 as [records Hmain]. exists records.
  split; [exact Hmain|].
  apply (batch_2_rows_distances Toy.library Toy.numpy_random Toy.python_random
           Toy.small (0%Z, 0%Z) records Hmain toy_geodesic_symmetric).
Defined.

Lemma batch_2_rows_cells_witness :
  exists records,
    main_2 Toy.library Toy.numpy_random Toy.python_random Toy.small (0%Z, 0%Z)
    = Ok records
    /\ forall r, nth_error records 0 = Some r ->
         team_callsign r = "GRID001"%string
         \/ In (team_callsign r) ["Alpha"; "alfa"; "bravo"]%string.
Proof.
  destruct small_batch_2 as [records Hmain]. exists records.
  split; [exact Hmain|].
  intros r Hr.
  apply (batch_2_rows_cells Toy.library Toy.numpy_random Toy.python_random
           Toy.small (0%Z, 0%Z) records Hmain 0 r Hr).
Defined.

Lemma report_ids_continue_witness :
  exists records_1 records_2,
    main Toy.library Toy.numpy_random Toy.python_random Toy.small (0%Z, 0%Z)
    = Ok records_1
    /\ main_2 Toy.library Toy.numpy_random Toy.python_random Toy.small (0%Z, 0%Z)
       = Ok records_2
    /\ forall r1 r2, In r1 records_1 -> In r2 records_2 ->
         (report_id r1 < report_id r2)%nat.
Proof.
  destruct small_batch as [records_1 Hmain1].
  destruct small_batch_2 as [records_2 Hmain2].
  exists records_1, records_2.
  split; [exact Hmain1|]. split; [exact Hmain2|].
  apply (report_ids_continue Toy.library Toy.numpy_random Toy.python_random
           Toy.small Toy.small (0%Z, 0%Z) (0%Z, 0%Z) records_1 records_2);
    [vm_compute; lia | exact Hmain1 | exact Hmain2].
Defined.

Lemma historical_rows_witness :
  exists records,
    main_historical Toy.library Toy.numpy_random Toy.python_random Toy.small
      (0%Z, 0%Z) = Ok records
    /\ map h_team_callsign records = ["TEAM001"; "TEAM002"; "TEAM003"]%string.
Proof.
  destruct small_history as [records Hmain]. exists records.
  split; [exact Hmain|].
  apply (historical_rows Toy.library Toy.numpy_random Toy.python_random Toy.small
           (0%Z, 0%Z) records Hmain).
Defined.

Lemma historical_rows_distances_witness :
  exists records,
    main_historical Toy.library Toy.numpy_random Toy.python_random Toy.small
      (0%Z, 0%Z) = Ok records
    /\ forall i j r q, i <> j ->
         nth_error records i = Some r -> nth_error records j = Some q ->
         2011.68 <= geodesic_meters Toy.library (h_team_lat r, h_team_lon r)
                      (h_team_lat q, h_team_lon q).
Proof.
  destruct small_history as [records Hmain]. exists records.
  split; [exact Hmain|].
  apply (historical_rows_distances Toy.library Toy.numpy_random Toy.python_random
           Toy.small (0%Z, 0%Z) records Hmain toy_geodesic_symmetric).
Defined.
